(** * Farm_Connect: the marketplace handlers of [app.py]

    A shallow embedding of the Flask application: the three tables of the
    SQLite database become finite maps keyed by primary key, every route
    handler becomes a function from the request and the database to a
    response and the database after the request, and the properties of the
    specification are proved about those functions.

    Requests are handled one at a time.  Python integers are kept as [Z]
    and floats as binary64.  Where a handler hands SQLite a number of the
    request (a product id of the URL, the quantity and the price of the
    product form), what SQLite does with it is part of the handler: an
    integer beyond 64 bits raises, a NaN for a [nullable=False] column
    fails the commit, and a negative zero is kept as zero. *)

From Stdlib Require Import ZArith String Ascii Floats Lia.
From stdpp Require Import gmap strings fin_maps list sorting.

Local Open Scope string_scope.
Local Open Scope Z_scope.

(** ** Python strings

    A [str] is modelled by [string], read as a sequence of code points
    below 256.  Only the three methods the handlers call are embedded. *)
Module Py.

(** [c.isspace()] for one code point below 256: TAB..CR, FS..US, space,
    NEL and NBSP. *)
Definition isspace (c : ascii) : bool :=
  let n := N_of_ascii c in
  ((9 <=? n) && (n <=? 13) || (28 <=? n) && (n <=? 32)
   || (n =? 133) || (n =? 160))%N.

(** [c.lower()] for one code point below 256: A..Z and the upper-case
    letters of Latin-1 (all of 192..222 but the multiplication sign). *)
Definition lower_char (c : ascii) : ascii :=
  let n := N_of_ascii c in
  if ((65 <=? n) && (n <=? 90)
      || (192 <=? n) && (n <=? 222) && negb (n =? 215))%N
  then ascii_of_N (n + 32) else c.

(** [s.lower()] *)
Fixpoint lower (s : string) : string :=
  match s with
  | EmptyString => EmptyString
  | String c s' => String (lower_char c) (lower s')
  end.

Fixpoint lstrip (s : string) : string :=
  match s with
  | EmptyString => EmptyString
  | String c s' => if isspace c then lstrip s' else s
  end.

Fixpoint rstrip (s : string) : string :=
  match s with
  | EmptyString => EmptyString
  | String c s' =>
      match rstrip s' with
      | EmptyString => if isspace c then EmptyString else String c EmptyString
      | r => String c r
      end
  end.

(** [s.strip()] *)
Definition strip (s : string) : string := rstrip (lstrip s).

(** [needle in hay] *)
Fixpoint contains (needle hay : string) : bool :=
  String.prefix needle hay
  || match hay with
     | EmptyString => false
     | String _ hay' => contains needle hay'
     end.

(** Truth value of a string: [not s] is [negb (truthy s)]. *)
Definition truthy (s : string) : bool :=
  match s with EmptyString => false | String _ _ => true end.

(** Truth value of [d.get(key)]: [None] and [''] are false. *)
Definition truthy_opt (o : option string) : bool :=
  match o with None => false | Some s => truthy s end.

(** [int * float]: the integer is converted to the nearest binary64
    (ties to even) and the product is the IEEE product.  Beyond the range
    of binary64, which no 64-bit integer reaches, Python raises; the
    conversion here gives infinity. *)
Definition float_of_int (z : Z) : float :=
  SF2Prim (binary_normalize prec emax z 0 false).

Definition int_mul_float (n : Z) (x : float) : float :=
  (float_of_int n * x)%float.

End Py.

(** ** The image selector *)

Definition generate_product_image_url (product_name : string) : string :=
  let name_lower := Py.lower product_name in
  if Py.contains "tomato" name_lower then "/static/images/ai_tomatoes.jpg"
  else if Py.contains "spinach" name_lower
  then "/static/images/ai_spinach.jpg"
  else if Py.contains "cabbage" name_lower
  then "/static/images/ai_cabbage.jpg"
  else "/static/images/default_ai_product.jpg".

(** ** The database

    One finite map per table, from the integer primary key [id] to the
    other columns of the row.  [created_at] and [order_date] are clock
    readings, kept as integers. *)

Module User.
Record t := mk {
  username : string;
  password_hash : string;
  role : string;
  name : string;
  contact_number : string }.
End User.

Module Product.
Record t := mk {
  farmer_id : Z;
  name : string;
  description : string;
  quantity : Z;
  price : float;
  created_at : Z;
  image_url : string }.

Definition set_quantity (q : Z) (p : t) : t :=
  mk (farmer_id p) (name p) (description p) q (price p) (created_at p)
     (image_url p).
End Product.

Module Order.
Record t := mk {
  customer_id : Z;
  product_id : Z;
  quantity : Z;
  total_price : float;
  order_date : Z;
  is_new : bool }.

Definition set_is_new (b : bool) (o : t) : t :=
  mk (customer_id o) (product_id o) (quantity o) (total_price o)
     (order_date o) b.
End Order.

Record DB := mkDB {
  users : gmap Z User.t;
  products : gmap Z Product.t;
  orders : gmap Z Order.t }.

Definition empty_db : DB := mkDB ∅ ∅ ∅.

(** SQLite gives a new row of an [INTEGER PRIMARY KEY] table the largest
    key in use plus one, and 1 in an empty table. *)
Definition next_id {A} (table : gmap Z A) : Z :=
  match (map_to_list table).*1 with
  | [] => 1
  | k :: ks => foldr Z.max k ks + 1
  end.

(** [db.session.add(row)] followed by the commit: the key and the table. *)
Definition insert_row {A} (row : A) (table : gmap Z A) : Z * gmap Z A :=
  (next_id table, <[next_id table := row]> table).

(** What fits an SQLite [INTEGER]: the signed 64-bit integers.  Binding any
    other Python integer to a statement raises OverflowError. *)
Definition sqlite_integer (z : Z) : bool :=
  (- 2 ^ 63 <=? z) && (z <? 2 ^ 63).

(** What a [Float] column gives back for a float written to it: the float
    itself, but zero for negative zero. *)
Definition sqlite_real (x : float) : float :=
  if (x =? 0)%float then 0%float else x.

(** ** Requests and responses *)

Inductive http_method := GET | POST.

(** The targets of [url_for]. *)
Inductive endpoint :=
| ep_index | ep_register | ep_login | ep_farmer_dashboard | ep_add_product
| ep_products | ep_order_product (product_id : Z) | ep_my_orders
| ep_admin_users.

(** What a handler answers.  [redirect] carries the message and category
    flashed just before it, if any; an exception that no handler catches
    ends the request with status 500 and nothing of the request is
    committed. *)
Inductive response :=
| redirect (flashed : option (string * string)) (to : endpoint)
| render_template (template : string)
| abort (code : Z)
| unauthorized
| jsonify (new_orders_count : nat)
| server_error (exception : string).

(** A quantity or price field of the product form: missing or empty, text
    that [int] or [float] reads as a number, or text that they reject. *)
Inductive numeric_field (A : Type) : Type :=
| field_empty
| field_number (a : A)
| field_garbage.

Arguments field_empty {A}.
Arguments field_number {A} a.
Arguments field_garbage {A}.

(** The number read from the field, if one is. *)
Definition field_value {A} (field : numeric_field A) : option A :=
  match field with
  | field_number a => Some a
  | field_empty | field_garbage => None
  end.

(** [int(field or 0)] and [float(field or 0.0)]: [None] stands for the
    ValueError of [int] and [float]. *)
Definition number_or {A} (zero : A) (field : numeric_field A) : option A :=
  match field with
  | field_empty => Some zero
  | field_number a => Some a
  | field_garbage => None
  end.

(** The answer of [get_or_404] when no row has the id: status 404, but an id
    that is no SQLite integer makes the lookup itself raise. *)
Definition no_row (id : Z) : response :=
  if sqlite_integer id then abort 404 else server_error "OverflowError".

(** [request.form].  A text field is [None] when the key is missing.  The
    quantity of the order form holds the number that [int] reads from the
    field, and [None] when the field is missing or empty, where the
    handler's [or 0] applies. *)
Module RegisterForm.
Record t := mk {
  username : option string;
  password : option string;
  role : option string;
  name : option string;
  contact_number : option string }.
End RegisterForm.

Module ProductForm.
Record t := mk {
  name : option string;
  description : option string;
  quantity_field : numeric_field Z;
  price_field : numeric_field float;
  image_url : option string;
  regenerate_ai : option string }.

Definition quantity (form : t) : option Z :=
  field_value (quantity_field form).

Definition price (form : t) : option float :=
  field_value (price_field form).
End ProductForm.

Module UserForm.
Record t := mk {
  name : option string;
  username : option string;
  contact_number : option string;
  role : option string;
  password : option string }.
End UserForm.

Module OrderForm.
Record t := mk { quantity : option Z }.
End OrderForm.

(** [request.form.get(key, '')] *)
Definition form_get (field : option string) : string :=
  default EmptyString field.

(** ** Access control *)

(** [load_user] and flask-login's [current_user]: the row of the id kept in
    the session, anonymous when there is none. *)
Definition load_user (db : DB) (user_id : Z) : option User.t :=
  users db !! user_id.

Definition current_user (db : DB) (session : option Z)
    : option (Z * User.t) :=
  match session with
  | None => None
  | Some uid =>
      match load_user db uid with
      | None => None
      | Some u => Some (uid, u)
      end
  end.

Definition is_customer (u : User.t) : bool :=
  String.eqb (User.role u) "customer".

Definition role_required (role : string) (f : Z → DB → response * DB)
    (session : option Z) (db : DB) : response * DB :=
  match current_user db session with
  | None => (unauthorized, db)
  | Some (uid, u) =>
      if negb (String.eqb (User.role u) role) then (abort 403, db)
      else f uid db
  end.

Definition login_required (f : Z → User.t → DB → response * DB)
    (session : option Z) (db : DB) : response * DB :=
  match current_user db session with
  | None => (unauthorized, db)
  | Some (uid, u) => f uid u db
  end.

(** ** Farmer routes *)

(** The rows selected by
    [Order.query.join(Product).filter(Product.farmer_id == farmer,
    Order.is_new == True)]. *)
Definition is_new_order_of (db : DB) (farmer : Z) (o : Order.t) : bool :=
  match products db !! Order.product_id o with
  | None => false
  | Some p => (Product.farmer_id p =? farmer)%Z && Order.is_new o
  end.

(** [/farmer/dashboard]: every new order on the farmer's products is marked
    seen before the page is rendered. *)
Definition farmer_dashboard : option Z → DB → response * DB :=
  role_required "farmer" (λ uid db,
    let seen o :=
      if is_new_order_of db uid o then Order.set_is_new false o else o in
    (render_template "farmer_dashboard.html",
     mkDB (users db) (products db) (seen <$> orders db))).

(** [/api/farmer/new_orders_count] *)
Definition new_orders_count : option Z → DB → response * DB :=
  role_required "farmer" (λ uid db,
    let count :=
      size (filter (λ kv, is_new_order_of db uid kv.2 = true) (orders db)) in
    (jsonify count, db)).

(** [/farmer/add_product]; [utcnow] is the clock reading that fills
    [created_at].  The commit raises for a quantity that is no SQLite
    integer, and fails for a NaN price, the column being
    [nullable=False]. *)
Definition add_product (method : http_method) (form : ProductForm.t)
    (utcnow : Z) : option Z → DB → response * DB :=
  role_required "farmer" (λ uid db,
    match method with
    | GET => (render_template "add_edit_product.html", db)
    | POST =>
        match ProductForm.name form with
        | None => (server_error "AttributeError", db)
        | Some raw_name =>
            let name := Py.strip raw_name in
            let description :=
              Py.strip (form_get (ProductForm.description form)) in
            match number_or 0 (ProductForm.quantity_field form),
                  number_or 0%float (ProductForm.price_field form) with
            | Some quantity, Some price =>
                let image_url :=
                  Py.strip (form_get (ProductForm.image_url form)) in
                if negb (Py.truthy name) then
                  (redirect (Some ("Product name required", "danger"))
                     ep_add_product, db)
                else
                  let image_url :=
                    if negb (Py.truthy image_url)
                    then generate_product_image_url name else image_url in
                  if negb (sqlite_integer quantity) then
                    (server_error "OverflowError", db)
                  else if PrimFloat.is_nan price then
                    (server_error "IntegrityError", db)
                  else
                    let p := Product.mk uid name description quantity
                               (sqlite_real price) utcnow image_url in
                    (redirect (Some ("Product added", "success"))
                       ep_farmer_dashboard,
                     mkDB (users db) (insert_row p (products db)).2
                       (orders db))
            | _, _ => (server_error "ValueError", db)
            end
        end
    end).

(** [/farmer/edit_product/<product_id>]; the commit raises and fails as in
    [add_product]. *)
Definition edit_product (product_id : Z) (method : http_method)
    (form : ProductForm.t) : option Z → DB → response * DB :=
  role_required "farmer" (λ uid db,
    match products db !! product_id with
    | None => (no_row product_id, db)
    | Some product =>
        if negb (Product.farmer_id product =? uid)%Z then (abort 403, db)
        else
          match method with
          | GET => (render_template "add_edit_product.html", db)
          | POST =>
              match ProductForm.name form with
              | None => (server_error "AttributeError", db)
              | Some raw_name =>
                  let name := Py.strip raw_name in
                  let description :=
                    Py.strip (form_get (ProductForm.description form)) in
                  match number_or 0 (ProductForm.quantity_field form),
                        number_or 0%float (ProductForm.price_field form) with
                  | Some quantity, Some price =>
                      let new_image_url :=
                        Py.strip (form_get (ProductForm.image_url form)) in
                      let regenerate_ai := ProductForm.regenerate_ai form in
                      let image_url :=
                        if Py.truthy new_image_url then new_image_url
                        else if Py.truthy_opt regenerate_ai
                             then generate_product_image_url name
                             else Product.image_url product in
                      if negb (sqlite_integer quantity) then
                        (server_error "OverflowError", db)
                      else if PrimFloat.is_nan price then
                        (server_error "IntegrityError", db)
                      else
                        let product' :=
                          Product.mk (Product.farmer_id product) name
                            description quantity (sqlite_real price)
                            (Product.created_at product) image_url in
                        (redirect (Some ("Product updated", "success"))
                           ep_farmer_dashboard,
                         mkDB (users db)
                           (<[product_id := product']> (products db))
                           (orders db))
                  | _, _ => (server_error "ValueError", db)
                  end
              end
          end
    end).

(** Whether some order row refers to the product. *)
Definition has_orders (db : DB) (product_id : Z) : bool :=
  bool_decide
    (map_Exists (λ _ o, Order.product_id o = product_id) (orders db)).

(** [/farmer/delete_product/<product_id>].  The [orders] relationship of
    [Product] declares no delete cascade and [Order.product_id] is
    [nullable=False]: deleting a product that orders refer to makes the
    commit raise, and the row stays. *)
Definition delete_product (product_id : Z)
    : option Z → DB → response * DB :=
  role_required "farmer" (λ uid db,
    match products db !! product_id with
    | None => (no_row product_id, db)
    | Some product =>
        if negb (Product.farmer_id product =? uid)%Z then (abort 403, db)
        else if has_orders db product_id then
          (server_error "IntegrityError", db)
        else
          (redirect (Some ("Product deleted", "info")) ep_farmer_dashboard,
           mkDB (users db) (delete product_id (products db)) (orders db))
    end).

(** ** Customer routes *)

(** [/order/<product_id>]; [utcnow] is the clock reading that fills
    [order_date]. *)
Definition order_product (product_id : Z) (method : http_method)
    (form : OrderForm.t) (utcnow : Z) : option Z → DB → response * DB :=
  login_required (λ uid u db,
    match products db !! product_id with
    | None => (no_row product_id, db)
    | Some product =>
        if negb (is_customer u) then
          (redirect (Some ("Only customers can place orders", "warning"))
             ep_products, db)
        else
          match method with
          | GET => (render_template "order_form.html", db)
          | POST =>
              let qty := default 0 (OrderForm.quantity form) in
              if (qty <=? 0)%Z then
                (redirect (Some ("Invalid quantity", "danger"))
                   (ep_order_product product_id), db)
              else if (qty >? Product.quantity product)%Z then
                (redirect (Some ("Not enough stock available", "danger"))
                   (ep_order_product product_id), db)
              else
                let total := Py.int_mul_float qty (Product.price product) in
                let order :=
                  Order.mk uid product_id qty total utcnow true in
                let product' :=
                  Product.set_quantity (Product.quantity product - qty)
                    product in
                (redirect (Some ("Order placed successfully", "success"))
                   ep_my_orders,
                 mkDB (users db)
                   (<[product_id := product']> (products db))
                   (insert_row order (orders db)).2)
          end
    end).

(** ** Routes that only read

    Each of these renders a page from the rows it selects; the rows handed
    to the template are not part of the answer. *)

(** [/logout]: the answer and the user id the session holds afterwards;
    [logout_user] leaves the session without one. *)
Definition logout (session : option Z) (db : DB) : response * option Z :=
  match current_user db session with
  | None => (unauthorized, session)
  | Some _ => (redirect (Some ("Logged out", "info")) ep_index, None)
  end.

(** [/my_orders], behind [login_required]: the same page for a customer and
    for any other role, filled with different orders. *)
Definition my_orders : option Z → DB → response * DB :=
  login_required (λ uid u db,
    if is_customer u then (render_template "my_orders.html", db)
    else (render_template "my_orders.html", db)).

(** [/admin/dashboard] *)
Definition admin_dashboard : option Z → DB → response * DB :=
  role_required "admin" (λ uid db,
    (render_template "admin_dashboard.html", db)).

(** [/admin/users] *)
Definition admin_users : option Z → DB → response * DB :=
  role_required "admin" (λ uid db, (render_template "admin_users.html", db)).

(** [/admin/products] *)
Definition admin_products : option Z → DB → response * DB :=
  role_required "admin" (λ uid db,
    (render_template "admin_products.html", db)).

(** ** Registration, administration and the demo data *)

Section App.

(** werkzeug's [generate_password_hash], as a function of the salt it
    draws and of the password. *)
Variable generate_password_hash : string → string → string.

(** [User.query.filter_by(username=username).first()] as a truth value. *)
Definition username_taken (db : DB) (username : string) : bool :=
  bool_decide (map_Exists (λ _ u, User.username u = username) (users db)).

Definition self_service_role (role : option string) : bool :=
  match role with
  | None => false
  | Some r => String.eqb r "farmer" || String.eqb r "customer"
  end.

(** [/register]; [salt] is drawn by [set_password]. *)
Definition register (method : http_method) (form : RegisterForm.t)
    (salt : string) (session : option Z) (db : DB) : response * DB :=
  match current_user db session with
  | Some _ => (redirect None ep_index, db)
  | None =>
      match method with
      | GET => (render_template "register.html", db)
      | POST =>
          match RegisterForm.username form with
          | None => (server_error "AttributeError", db)
          | Some raw_username =>
              let username := Py.strip raw_username in
              let password := RegisterForm.password form in
              let role := RegisterForm.role form in
              let name := Py.strip (form_get (RegisterForm.name form)) in
              let contact_number :=
                Py.strip (form_get (RegisterForm.contact_number form)) in
              if negb (Py.truthy username) || negb (Py.truthy_opt password)
                 || negb (self_service_role role) || negb (Py.truthy name)
                 || negb (Py.truthy contact_number)
              then
                (redirect
                   (Some ("All required fields must be filled", "danger"))
                   ep_register, db)
              else if username_taken db username then
                (redirect (Some ("Username already taken", "warning"))
                   ep_register, db)
              else
                let user :=
                  User.mk username
                    (generate_password_hash salt (default EmptyString password))
                    (default EmptyString role) name contact_number in
                (redirect
                   (Some ("Registration successful. Please log in.",
                          "success"))
                   ep_login,
                 mkDB (insert_row user (users db)).2 (products db)
                   (orders db))
          end
      end
  end.

(** Whether a row other than [user_id] holds the username: the commit of
    an update then breaks the [unique=True] of the column. *)
Definition username_clash (db : DB) (user_id : Z) (username : string)
    : bool :=
  bool_decide
    (map_Exists (λ i u, i ≠ user_id ∧ User.username u = username)
       (users db)).

(** [/admin/edit_user/<user_id>].  The commit raises when the new username
    is another row's, and when the form has no [role], the column being
    [nullable=False]. *)
Definition admin_edit_user (user_id : Z) (method : http_method)
    (form : UserForm.t) (salt : string)
    : option Z → DB → response * DB :=
  role_required "admin" (λ uid db,
    match users db !! user_id with
    | None => (no_row user_id, db)
    | Some user =>
        if String.eqb (User.username user) "admin" then
          (redirect
             (Some ("Cannot modify the primary system administrator account.",
                    "danger"))
             ep_admin_users, db)
        else
          match method with
          | GET => (render_template "admin_edit_user.html", db)
          | POST =>
              match UserForm.name form, UserForm.username form,
                    UserForm.contact_number form with
              | Some raw_name, Some raw_username, Some raw_contact =>
                  let name := Py.strip raw_name in
                  let username := Py.strip raw_username in
                  let contact_number := Py.strip raw_contact in
                  let new_password := UserForm.password form in
                  let password_hash :=
                    if Py.truthy_opt new_password
                    then generate_password_hash salt
                           (default EmptyString new_password)
                    else User.password_hash user in
                  match UserForm.role form with
                  | None => (server_error "IntegrityError", db)
                  | Some role =>
                      if username_clash db user_id username then
                        (server_error "IntegrityError", db)
                      else
                        let user' :=
                          User.mk username password_hash role name
                            contact_number in
                        (redirect
                           (Some ("User " +:+ username
                                  +:+ " updated successfully.", "success"))
                           ep_admin_users,
                         mkDB (<[user_id := user']> (users db))
                           (products db) (orders db))
                  end
              | _, _, _ => (server_error "AttributeError", db)
              end
          end
    end).

(** [create_demo_data]; the three salts are those of the three
    [set_password] calls, the four clock readings fill [created_at] of the
    three products and [order_date] of the order. *)
Definition create_demo_data (salts : string * string * string)
    (utcnow : Z * Z * Z * Z) (db : DB) : DB :=
  match map_to_list (users db) with
  | _ :: _ => db
  | [] =>
      let '(s1, s2, s3) := salts in
      let '(t1, t2, t3, t4) := utcnow in
      let admin :=
        User.mk "admin" (generate_password_hash s1 "123") "admin"
          "System Admin" "0000000000" in
      let farmer :=
        User.mk "farmer1" (generate_password_hash s2 "farmerpass") "farmer"
          "Alice Farmer" "9876543210" in
      let customer :=
        User.mk "cust1" (generate_password_hash s3 "custpass") "customer"
          "Bob Customer" "9998887776" in
      let '(admin_id, users1) := insert_row admin (users db) in
      let '(farmer_id, users2) := insert_row farmer users1 in
      let '(customer_id, users3) := insert_row customer users2 in
      let p1 :=
        Product.mk farmer_id "Tomatoes" "Fresh red tomatoes" 100 30%float t1
          (generate_product_image_url "Tomatoes") in
      let p2 :=
        Product.mk farmer_id "Spinach" "Leafy spinach" 50 20%float t2
          (generate_product_image_url "Spinach") in
      let p3 :=
        Product.mk farmer_id "Cabbage" "Crisp green cabbage" 40 25%float t3
          (generate_product_image_url "Cabbage") in
      let '(p1_id, products1) := insert_row p1 (products db) in
      let '(p2_id, products2) := insert_row p2 products1 in
      let '(p3_id, products3) := insert_row p3 products2 in
      let o1 := Order.mk customer_id p1_id 5 150%float t4 false in
      mkDB users3 products3 (insert_row o1 (orders db)).2
  end.

(** ** Runs of the application

    The requests that write to the database, and the start of the process,
    which calls [create_demo_data].  The remaining routes only read. *)
Inductive request :=
| Register (method : http_method) (form : RegisterForm.t) (salt : string)
| FarmerDashboard
| AddProduct (method : http_method) (form : ProductForm.t) (utcnow : Z)
| EditProduct (product_id : Z) (method : http_method) (form : ProductForm.t)
| DeleteProduct (product_id : Z)
| OrderProduct (product_id : Z) (method : http_method) (form : OrderForm.t)
    (utcnow : Z)
| AdminEditUser (user_id : Z) (method : http_method) (form : UserForm.t)
    (salt : string).

Definition handle (r : request) : option Z → DB → response * DB :=
  match r with
  | Register m f s => register m f s
  | FarmerDashboard => farmer_dashboard
  | AddProduct m f t => add_product m f t
  | EditProduct i m f => edit_product i m f
  | DeleteProduct i => delete_product i
  | OrderProduct i m f t => order_product i m f t
  | AdminEditUser i m f s => admin_edit_user i m f s
  end.

Inductive event :=
| Startup (salts : string * string * string) (utcnow : Z * Z * Z * Z)
| Request (session : option Z) (r : request).

Definition apply_event (db : DB) (e : event) : DB :=
  match e with
  | Startup salts utcnow => create_demo_data salts utcnow db
  | Request session r => (handle r session db).2
  end.

Definition run (es : list event) (db : DB) : DB :=
  fold_left apply_event es db.

End App.

(** ** Signing in *)

Module LoginForm.
Record t := mk {
  username : option string;
  password : option string }.
End LoginForm.

(** Where [login] redirects to: an endpoint of the application, or the URL
    given in the [next] argument of the query string. *)
Inductive location :=
| to_endpoint (e : endpoint)
| to_url (next : string).

(** What [login] answers; [login_raised] stands for an exception that ends
    the request with status 500. *)
Inductive login_answer :=
| login_redirect (flashed : option (string * string)) (to : location)
| login_render (flashed : option (string * string))
| login_raised.

Section Login.

(** werkzeug's [check_password_hash] on the stored hash and the password
    field of the form, [None] when the call raises. *)
Variable check_password_hash : string → option string → option bool.

(** [User.query.filter_by(username=username).first()].  The column is
    [unique=True]: at most one row matches. *)
Definition find_user (db : DB) (username : string)
    : option (Z * User.t) :=
  head
    (filter (λ kv, User.username kv.2 = username) (map_to_list (users db))).

(** [/login]: the answer and the user id the session holds afterwards.
    The database is only read. *)
Definition login (method : http_method) (form : LoginForm.t)
    (next_page : option string) (session : option Z) (db : DB)
    : login_answer * option Z :=
  match current_user db session with
  | Some _ => (login_redirect None (to_endpoint ep_index), session)
  | None =>
      match method with
      | GET => (login_render None, session)
      | POST =>
          match LoginForm.username form with
          | None => (login_raised, session)
          | Some raw_username =>
              let username := Py.strip raw_username in
              let password := LoginForm.password form in
              let invalid :=
                (login_render
                   (Some ("Invalid username or password.", "danger")),
                 session) in
              match find_user db username with
              | None => invalid
              | Some (uid, user) =>
                  match check_password_hash (User.password_hash user)
                          password with
                  | None => (login_raised, session)
                  | Some false => invalid
                  | Some true =>
                      (login_redirect
                         (Some ("Logged in successfully.", "success"))
                         (if Py.truthy_opt next_page
                          then to_url (form_get next_page)
                          else to_endpoint ep_index),
                       Some uid)
                  end
              end
          end
      end
  end.

End Login.

(** ** The public catalogue *)

(** The rows selected by [Product.query.filter(Product.quantity > 0)]. *)
Definition available_products (db : DB) : gmap Z Product.t :=
  filter (λ kv, 0 < Product.quantity kv.2) (products db).

(** [order_by(Product.created_at.desc())]: no row comes before a newer
    one. *)
Definition newest_first (rows : list (Z * Product.t)) : Prop :=
  StronglySorted
    (λ a b, Product.created_at b.2 ≤ Product.created_at a.2) rows.

(** [rows] is a result of the query of [/products]: the selected rows, each
    once, newest first; rows of equal [created_at] come in any order. *)
Definition products_page (db : DB) (rows : list (Z * Product.t)) : Prop :=
  rows ≡ₚ map_to_list (available_products db) ∧ newest_first rows.

(** ** Sample data

    A hash function to run the handlers with, the database right after the
    first start, and the catalog after the seeded farmer lists a product
    with quantity -5. *)

Definition sample_hash (salt password : string) : string :=
  salt +:+ "$" +:+ password.

Definition demo_db : DB :=
  create_demo_data sample_hash ("s1", "s2", "s3") (1, 2, 3, 4) empty_db.

Definition beetroot_form : ProductForm.t :=
  ProductForm.mk (Some "Beetroot") None (field_number (-5))
    (field_number 10%float) None None.

Definition short_db : DB :=
  (add_product POST beetroot_form 5 (Some 2) demo_db).2.

(** The seeded rows. *)
Definition admin_row : User.t :=
  User.mk "admin" "s1$123" "admin" "System Admin" "0000000000".

Definition farmer1_row : User.t :=
  User.mk "farmer1" "s2$farmerpass" "farmer" "Alice Farmer" "9876543210".

Definition cust1_row : User.t :=
  User.mk "cust1" "s3$custpass" "customer" "Bob Customer" "9998887776".

Definition tomatoes_row : Product.t :=
  Product.mk 2 "Tomatoes" "Fresh red tomatoes" 100 30%float 1
    "/static/images/ai_tomatoes.jpg".

(** A second farmer signs up. *)
Definition farmer2_form : RegisterForm.t :=
  RegisterForm.mk (Some "farmer2") (Some "pw") (Some "farmer") (Some "Carol")
    (Some "5550001111").

Definition farmer2_row : User.t :=
  User.mk "farmer2" "s4$pw" "farmer" "Carol" "5550001111".

Definition two_farmers_db : DB :=
  (register sample_hash POST farmer2_form "s4" None demo_db).2.

(** cust1 orders 5 Tomatoes. *)
Definition ordered_db : DB :=
  (order_product 1 POST (OrderForm.mk (Some 5)) 10 (Some 3) demo_db).2.

(** A hash that keeps the password as it is, and the check that goes with
    it, to run [login] with. *)
Definition plain_hash (salt password : string) : string := password.

Definition plain_check (pwhash : string) (password : option string)
    : option bool :=
  match password with
  | None => None
  | Some pw => Some (String.eqb pwhash pw)
  end.

(** ** Vocabulary of the properties *)

(** [name] has a part that reads [keyword] once lower-cased: the keyword
    occurs in the name, letter case aside. *)
Definition mentions (keyword name : string) : Prop :=
  ∃ pre mid post, name = pre +:+ mid +:+ post ∧ Py.lower mid = keyword.

(** No product has a negative quantity. *)
Definition stock_nonneg (db : DB) : Prop :=
  map_Forall (λ _ p, 0 ≤ Product.quantity p) (products db).

(** No two rows of [user] hold the same username. *)
Definition usernames_unique (db : DB) : Prop :=
  ∀ i j u v,
    users db !! i = Some u → users db !! j = Some v →
    User.username u = User.username v → i = j.

(** The event writes no negative quantity into a product form. *)
Definition submits_nonneg (e : event) : Prop :=
  match e with
  | Request _ (AddProduct _ form _) | Request _ (EditProduct _ _ form) =>
      0 ≤ default 0 (ProductForm.quantity form)
  | _ => True
  end.

(** The event is a request to [/order/<product_id>]. *)
Definition is_order_request (e : event) : Prop :=
  match e with
  | Request _ (OrderProduct _ _ _ _) => True
  | _ => False
  end.

(** The order is on a product of the farmer. *)
Definition order_on_product_of (db : DB) (farmer : Z) (o : Order.t) : Prop :=
  ∃ p, products db !! Order.product_id o = Some p
       ∧ Product.farmer_id p = farmer.

(** The route is behind [role_required] or [login_required]. *)
Definition gated (r : request) : Prop :=
  match r with
  | Register _ _ _ => False
  | _ => True
  end.

(** The role a route is decorated with, if any. *)
Definition required_role (r : request) : option string :=
  match r with
  | FarmerDashboard | AddProduct _ _ _ | EditProduct _ _ _
  | DeleteProduct _ => Some "farmer"
  | AdminEditUser _ _ _ _ => Some "admin"
  | Register _ _ _ | OrderProduct _ _ _ _ => None
  end.

(** Units ordered of a product: the quantities of the orders that refer to
    it, added up. *)
Definition ordered_quantity (db : DB) (product_id : Z) : Z :=
  map_fold
    (λ _ o total,
       (if Order.product_id o =? product_id then Order.quantity o else 0)
       + total)
    0 (orders db).

(** Every order refers to a product row and to a user row. *)
Definition orders_refer_to_rows (db : DB) : Prop :=
  map_Forall
    (λ _ o, is_Some (products db !! Order.product_id o)
            ∧ is_Some (users db !! Order.customer_id o))
    (orders db).

(** [o'] is [o] with, at most, its new flag cleared. *)
Definition flag_cleared_at_most (o o' : Order.t) : Prop :=
  Order.customer_id o' = Order.customer_id o
  ∧ Order.product_id o' = Order.product_id o
  ∧ Order.quantity o' = Order.quantity o
  ∧ Order.total_price o' = Order.total_price o
  ∧ Order.order_date o' = Order.order_date o
  ∧ (Order.is_new o' = true → Order.is_new o = true).

(** The event is neither an edit nor a deletion of a product: the two
    requests by which a farmer changes the stock by hand. *)
Definition keeps_the_books (e : event) : Prop :=
  match e with
  | Request _ (EditProduct _ _ _) | Request _ (DeleteProduct _) => False
  | _ => True
  end.

(** ** Python strings: facts *)

Example image_fresh_tomatoes :
  generate_product_image_url "Fresh Tomatoes"
  = "/static/images/ai_tomatoes.jpg".
Proof. reflexivity. Qed.

Example image_quinoa :
  generate_product_image_url "Quinoa" = "/static/images/default_ai_product.jpg".
Proof. reflexivity. Qed.

Example strip_both_ends : Py.strip "  a b  " = "a b".
Proof. reflexivity. Qed.

Example mul_5_30 : Py.int_mul_float 5 30%float = 150%float.
Proof. vm_compute. reflexivity. Qed.

Lemma lower_app (a b : string) :
  Py.lower (a +:+ b) = Py.lower a +:+ Py.lower b.
Proof. induction a as [|c a IH]; simpl; [done | by rewrite IH]. Qed.

Lemma lower_split (s a b : string) :
  Py.lower s = a +:+ b →
  ∃ a' b', s = a' +:+ b' ∧ Py.lower a' = a ∧ Py.lower b' = b.
Proof.
  revert s. induction a as [|c a IH]; intros s H.
  - exists EmptyString, s. by simpl in *.
  - destruct s as [|d s]; simpl in H; [done |].
    injection H as Hc Hs. destruct (IH _ Hs) as (a' & b' & -> & Ha & Hb).
    exists (String d a'), b'. simpl. by rewrite Hc, Ha.
Qed.

Lemma prefix_iff (needle hay : string) :
  String.prefix needle hay = true ↔ ∃ post, hay = needle +:+ post.
Proof.
  revert hay. induction needle as [|c n IH]; intros hay; simpl.
  - split; [intros _; by exists hay | by destruct hay].
  - destruct hay as [|d h]; simpl.
    + split; [done | by intros [post ?]].
    + destruct (ascii_dec c d) as [->|Hne].
      * rewrite IH. split; intros [post Hp]; exists post; [by rewrite Hp|].
        by injection Hp.
      * split; [done | intros [post Hp]; injection Hp; congruence].
Qed.

Lemma contains_iff (needle hay : string) :
  Py.contains needle hay = true ↔ ∃ pre post, hay = pre +:+ needle +:+ post.
Proof.
  induction hay as [|d h IH]; cbn [Py.contains].
  - rewrite orb_false_r, prefix_iff. split.
    + intros [post Hp]. by exists EmptyString, post.
    + intros (pre & post & Hp).
      destruct pre; simpl in Hp; [by exists post | done].
  - rewrite orb_true_iff, prefix_iff, IH. split.
    + intros [[post Hp] | (pre & post & Hp)].
      * by exists EmptyString, post.
      * exists (String d pre), post. simpl. by rewrite Hp.
    + intros (pre & post & Hp). destruct pre as [|e pre]; simpl in Hp.
      * left. by exists post.
      * right. injection Hp as _ Hp. by exists pre, post.
Qed.

Lemma contains_lower_iff (keyword name : string) :
  Py.contains keyword (Py.lower name) = true ↔ mentions keyword name.
Proof.
  rewrite contains_iff. unfold mentions. split.
  - intros (pre & post & H).
    destruct (lower_split _ _ _ H) as (pre' & rest & -> & _ & Hrest).
    destruct (lower_split _ _ _ Hrest) as (mid & post' & -> & Hmid & _).
    by exists pre', mid, post'.
  - intros (pre & mid & post & -> & Hmid).
    exists (Py.lower pre), (Py.lower post).
    by rewrite !lower_app, Hmid.
Qed.

(** ** Tables: facts *)

Lemma foldr_max_ge (k : Z) (ks : list Z) (x : Z) :
  x ∈ k :: ks → x ≤ foldr Z.max k ks.
Proof.
  induction ks as [|a ks IH]; simpl; intros Hx.
  - apply list_elem_of_singleton in Hx. lia.
  - apply elem_of_cons in Hx as [->|Hx].
    + specialize (IH ltac:(left)). lia.
    + apply elem_of_cons in Hx as [->|Hx]; [lia|].
      specialize (IH ltac:(by right)). lia.
Qed.

Lemma next_id_fresh {A} (table : gmap Z A) : table !! next_id table = None.
Proof.
  destruct (table !! next_id table) as [a|] eqn:E; [exfalso | done].
  assert (next_id table ∈ (map_to_list table).*1) as Hin.
  { apply list_elem_of_fmap. exists (next_id table, a).
    split; [done | by apply elem_of_map_to_list]. }
  unfold next_id in Hin at 1. unfold next_id in E.
  destruct ((map_to_list table).*1) as [|k ks]; [by apply elem_of_nil in Hin|].
  apply foldr_max_ge in Hin. lia.
Qed.

Lemma insert_row_size {A} (row : A) (table : gmap Z A) :
  size (insert_row row table).2 = S (size table).
Proof. apply map_size_insert_None, next_id_fresh. Qed.

Lemma insert_row_ne {A} (row : A) (table : gmap Z A) :
  (insert_row row table).2 ≠ table.
Proof.
  intros H. apply (f_equal size) in H. rewrite insert_row_size in H. lia.
Qed.

Lemma insert_row_lookup {A} (row : A) (table : gmap Z A) i a :
  table !! i = Some a → (insert_row row table).2 !! i = Some a.
Proof.
  intros H. unfold insert_row; simpl. rewrite lookup_insert_ne; [done|].
  intros <-. by rewrite next_id_fresh in H.
Qed.


(** ** Numbers of the product form: facts *)

Lemma number_or_readable {A} (zero : A) (field : numeric_field A) :
  field ≠ field_garbage →
  number_or zero field = Some (default zero (field_value field)).
Proof. by destruct field. Qed.

Lemma number_or_Some {A} (zero : A) (field : numeric_field A) a :
  number_or zero field = Some a →
  field ≠ field_garbage ∧ a = default zero (field_value field).
Proof. destruct field; simpl; intros H; by simplify_eq. Qed.

(** ** Access control: facts *)

Lemma role_required_pass role f session db uid u :
  current_user db session = Some (uid, u) → User.role u = role →
  role_required role f session db = f uid db.
Proof.
  intros Hcu Hrole. unfold role_required. rewrite Hcu, Hrole.
  by rewrite String.eqb_refl.
Qed.

Lemma role_required_unchanged_or role f session db :
  (role_required role f session db).2 = db
  ∨ ∃ uid u, current_user db session = Some (uid, u) ∧ User.role u = role
             ∧ role_required role f session db = f uid db.
Proof.
  unfold role_required. destruct (current_user db session) as [[uid u]|] eqn:E;
    [|by left].
  destruct (String.eqb (User.role u) role) eqn:Er; simpl; [|by left].
  right. exists uid, u. by apply String.eqb_eq in Er.
Qed.

Lemma truthy_true_iff s : Py.truthy s = true ↔ s ≠ EmptyString.
Proof. by destruct s. Qed.

Lemma truthy_false_iff s : Py.truthy s = false ↔ s = EmptyString.
Proof. by destruct s. Qed.

(** ** The image selector and [add_product] *)

(** C7: the image reference is a function of the product name alone: a name
    that mentions tomato gets the tomato picture, else one that mentions
    spinach the spinach picture, else one that mentions cabbage the cabbage
    picture, and any other name the default picture; "Fresh Tomatoes" gets
    the tomato picture and "Quinoa" the default one.  A farmer's add-product
    post with a name stores, in whatever product row it adds, the selector's
    choice for the stripped name when the stripped image field is empty, and
    the stripped image field itself when it is not; and it does add a row,
    under the next free key, when the quantity and price fields are read as
    numbers that SQLite stores. *)
Theorem image_url_derivation db session uid u form raw_name utcnow :
  current_user db session = Some (uid, u) →
  User.role u = "farmer" →
  ProductForm.name form = Some raw_name →
  Py.strip raw_name ≠ EmptyString →
  let image_field := Py.strip (form_get (ProductForm.image_url form)) in
  let tomato := "/static/images/ai_tomatoes.jpg" in
  let spinach := "/static/images/ai_spinach.jpg" in
  let cabbage := "/static/images/ai_cabbage.jpg" in
  let fallback := "/static/images/default_ai_product.jpg" in
  let result := add_product POST form utcnow session db in
  (∀ name,
     (mentions "tomato" name → generate_product_image_url name = tomato)
     ∧ (¬ mentions "tomato" name → mentions "spinach" name →
        generate_product_image_url name = spinach)
     ∧ (¬ mentions "tomato" name → ¬ mentions "spinach" name →
        mentions "cabbage" name → generate_product_image_url name = cabbage)
     ∧ (¬ mentions "tomato" name → ¬ mentions "spinach" name →
        ¬ mentions "cabbage" name →
        generate_product_image_url name = fallback))
  ∧ generate_product_image_url "Fresh Tomatoes" = tomato
  ∧ generate_product_image_url "Quinoa" = fallback
  ∧ (∀ k p, products result.2 !! k = Some p → products db !! k = None →
       Product.name p = Py.strip raw_name
       ∧ (image_field = EmptyString →
          Product.image_url p
          = generate_product_image_url (Py.strip raw_name))
       ∧ (image_field ≠ EmptyString → Product.image_url p = image_field))
  ∧ (ProductForm.quantity_field form ≠ field_garbage →
     ProductForm.price_field form ≠ field_garbage →
     sqlite_integer (default 0 (ProductForm.quantity form)) = true →
     PrimFloat.is_nan (default 0%float (ProductForm.price form)) = false →
     ∃ p,
       result
       = (redirect (Some ("Product added", "success")) ep_farmer_dashboard,
          mkDB (users db) (<[next_id (products db) := p]> (products db))
            (orders db))).
Proof.
  intros Hcu Hrole Hname Hne. cbv zeta. split_and!.
  - intros name. split_and!.
    + intros Ht%contains_lower_iff.
      unfold generate_product_image_url. by rewrite Ht.
    + intros Ht Hs%contains_lower_iff. unfold generate_product_image_url.
      destruct (Py.contains "tomato" _) eqn:Et;
        [by apply contains_lower_iff in Et|]. by rewrite Hs.
    + intros Ht Hs Hc%contains_lower_iff. unfold generate_product_image_url.
      destruct (Py.contains "tomato" _) eqn:Et;
        [by apply contains_lower_iff in Et|].
      destruct (Py.contains "spinach" _) eqn:Es;
        [by apply contains_lower_iff in Es|]. by rewrite Hc.
    + intros Ht Hs Hc. unfold generate_product_image_url.
      destruct (Py.contains "tomato" _) eqn:Et;
        [by apply contains_lower_iff in Et|].
      destruct (Py.contains "spinach" _) eqn:Es;
        [by apply contains_lower_iff in Es|].
      destruct (Py.contains "cabbage" _) eqn:Ec;
        [by apply contains_lower_iff in Ec|]. done.
  - reflexivity.
  - reflexivity.
  - unfold add_product. rewrite (role_required_pass _ _ _ _ _ _ Hcu Hrole).
    rewrite Hname. apply truthy_true_iff in Hne. rewrite Hne.
    intros k p Hk Hnone.
    repeat case_match; simpl in Hk; try congruence.
    all: apply lookup_insert_Some in Hk as [[<- <-]|[_ Hk]]; [|congruence].
    all: simpl; split_and!; try done.
    all: match goal with
         | H : negb (Py.truthy _) = _ |- _ =>
             first [apply negb_true_iff in H | apply negb_false_iff in H]
         end.
    all: try (intros Hblank; rewrite Hblank in *; done).
    all: intros Hfield%truthy_true_iff; congruence.
  - intros Hq Hp Hint Hnan.
    unfold add_product. rewrite (role_required_pass _ _ _ _ _ _ Hcu Hrole).
    rewrite Hname. apply truthy_true_iff in Hne.
    rewrite (number_or_readable _ _ Hq), (number_or_readable _ _ Hp), Hne.
    simpl. unfold ProductForm.quantity, ProductForm.price in Hint, Hnan.
    rewrite Hint, Hnan. simpl. by eexists.
Qed.

(** ** Placing an order *)

Lemma order_product_customer db session uid u product_id product form utcnow :
  current_user db session = Some (uid, u) →
  User.role u = "customer" →
  products db !! product_id = Some product →
  order_product product_id POST form utcnow session db
  = let qty := default 0 (OrderForm.quantity form) in
    if qty <=? 0 then
      (redirect (Some ("Invalid quantity", "danger"))
         (ep_order_product product_id), db)
    else if qty >? Product.quantity product then
      (redirect (Some ("Not enough stock available", "danger"))
         (ep_order_product product_id), db)
    else
      (redirect (Some ("Order placed successfully", "success")) ep_my_orders,
       mkDB (users db)
         (<[product_id :=
              Product.set_quantity (Product.quantity product - qty) product]>
            (products db))
         (<[next_id (orders db) :=
              Order.mk uid product_id qty
                (Py.int_mul_float qty (Product.price product)) utcnow true]>
            (orders db))).
Proof.
  intros Hcu Hrole Hp. unfold order_product, login_required, is_customer.
  by rewrite Hcu, Hp, Hrole.
Qed.

(** Whatever the request, [order_product] either writes nothing or writes the
    order and the new quantity in the same commit. *)
Lemma order_product_all_or_nothing product_id method form utcnow session db :
  let db' := (order_product product_id method form utcnow session db).2 in
  db' = db
  ∨ (users db' = users db ∧ orders db' ≠ orders db
     ∧ products db' ≠ products db).
Proof.
  unfold order_product, login_required.
  destruct (current_user db session) as [[uid u]|]; [|by left].
  destruct (products db !! product_id) as [product|] eqn:Hp; [|by left].
  destruct (negb (is_customer u)); [by left|].
  destruct method; [by left|].
  destruct (_ <=? 0) eqn:Hq; [by left|].
  destruct (_ >? _) eqn:Hs; [by left|].
  right. simpl. split; [done|]. split; [apply insert_row_ne|].
  intros H. apply (f_equal (lookup product_id)) in H.
  rewrite lookup_insert_eq, Hp in H. injection H as H.
  apply (f_equal Product.quantity) in H. simpl in H. lia.
Qed.

(** C1: when a customer orders a quantity [q] with [0 < q] and [q] at most
    the product's quantity, the order is placed: one order row is added,
    under a key that was free, for this customer and product, with quantity
    [q], total price [q] times the product's price, and the new flag set; the
    product's quantity goes down by [q]; nothing else changes.  And no
    request to the route can change the orders without changing the products
    or the other way round. *)
Theorem place_order_success db session uid u product_id product q utcnow :
  current_user db session = Some (uid, u) →
  User.role u = "customer" →
  products db !! product_id = Some product →
  0 < q ≤ Product.quantity product →
  let result :=
    order_product product_id POST (OrderForm.mk (Some q)) utcnow session db in
  let order :=
    Order.mk uid product_id q (Py.int_mul_float q (Product.price product))
      utcnow true in
  result.1
  = redirect (Some ("Order placed successfully", "success")) ep_my_orders
  ∧ orders db !! next_id (orders db) = None
  ∧ orders result.2 = <[next_id (orders db) := order]> (orders db)
  ∧ size (orders result.2) = S (size (orders db))
  ∧ products result.2
    = <[product_id :=
          Product.set_quantity (Product.quantity product - q) product]>
        (products db)
  ∧ users result.2 = users db
  ∧ ∀ product_id' method form utcnow' session' db0,
      let db' :=
        (order_product product_id' method form utcnow' session' db0).2 in
      orders db' = orders db0 ↔ products db' = products db0.
Proof.
  intros Hcu Hrole Hp [Hq1 Hq2]. cbv zeta.
  rewrite (order_product_customer _ _ _ _ _ _ _ _ Hcu Hrole Hp). simpl.
  destruct (q <=? 0) eqn:E1; [lia|].
  destruct (q >? Product.quantity product) eqn:E2; [lia|]. simpl.
  split; [done|]. split; [apply next_id_fresh|]. split; [done|].
  split; [apply map_size_insert_None, next_id_fresh|].
  split; [done|]. split; [done|].
  intros pid' m f t' s' db0.
  destruct (order_product_all_or_nothing pid' m f t' s' db0) as [->|(_&Ho&Hpr)];
    [done|]. cbv zeta. split; intros; done.
Qed.

(** C2, as the code has it: a customer's order for a quantity [q ≤ 0] is
    turned down as an invalid quantity, whatever the stock, and an order for
    a positive [q] above the product's quantity is turned down for lack of
    stock; in both cases the database, so the product's quantity and all
    orders, is as before. *)
Theorem place_order_rejected db session uid u product_id product form utcnow :
  current_user db session = Some (uid, u) →
  User.role u = "customer" →
  products db !! product_id = Some product →
  let q := default 0 (OrderForm.quantity form) in
  let result := order_product product_id POST form utcnow session db in
  (q ≤ 0 →
   result = (redirect (Some ("Invalid quantity", "danger"))
               (ep_order_product product_id), db))
  ∧ (0 < q → q > Product.quantity product →
     result = (redirect (Some ("Not enough stock available", "danger"))
                 (ep_order_product product_id), db)).
Proof.
  intros Hcu Hrole Hp. cbv zeta.
  rewrite (order_product_customer _ _ _ _ _ _ _ _ Hcu Hrole Hp). cbv zeta.
  split.
  - intros Hq. destruct (_ <=? 0) eqn:E; [done | lia].
  - intros Hq Hs. destruct (_ <=? 0) eqn:E; [lia|].
    destruct (_ >? _) eqn:E'; [done | lia].
Qed.

(** ** Ownership of products *)

(** C4: a signed-in user who is not the farmer owning an existing product
    gets status 403 from both the edit and the delete route, whatever the
    method and the form, and the database is as before. *)
Theorem non_owner_forbidden db session uid u product_id product method form :
  current_user db session = Some (uid, u) →
  products db !! product_id = Some product →
  Product.farmer_id product ≠ uid →
  edit_product product_id method form session db = (abort 403, db)
  ∧ delete_product product_id session db = (abort 403, db).
Proof.
  intros Hcu Hp Hne. unfold edit_product, delete_product, role_required.
  rewrite Hcu. destruct (negb (String.eqb (User.role u) "farmer")); [done|].
  rewrite Hp. destruct (Z.eqb_spec (Product.farmer_id product) uid); done.
Qed.

(** C10: when the owning farmer posts the edit form with a quantity and a
    price that are read as numbers SQLite stores, the product keeps its
    owner and creation time and takes the stripped name and description, the
    quantity and the price of the form (a negative zero price being kept as
    zero); its image reference is the stripped image field when that is not
    empty, whatever the regenerate flag; otherwise the selector's choice for
    the new name when the flag is set; otherwise the reference it had. *)
Theorem edit_product_image_precedence
    db session uid u product_id product form raw_name :
  current_user db session = Some (uid, u) →
  User.role u = "farmer" →
  products db !! product_id = Some product →
  Product.farmer_id product = uid →
  ProductForm.name form = Some raw_name →
  ProductForm.quantity_field form ≠ field_garbage →
  ProductForm.price_field form ≠ field_garbage →
  sqlite_integer (default 0 (ProductForm.quantity form)) = true →
  PrimFloat.is_nan (default 0%float (ProductForm.price form)) = false →
  let image_field := Py.strip (form_get (ProductForm.image_url form)) in
  let flag := Py.truthy_opt (ProductForm.regenerate_ai form) in
  ∃ p,
    edit_product product_id POST form session db
    = (redirect (Some ("Product updated", "success")) ep_farmer_dashboard,
       mkDB (users db) (<[product_id := p]> (products db)) (orders db))
    ∧ Product.farmer_id p = Product.farmer_id product
    ∧ Product.created_at p = Product.created_at product
    ∧ Product.name p = Py.strip raw_name
    ∧ Product.description p
      = Py.strip (form_get (ProductForm.description form))
    ∧ Product.quantity p = default 0 (ProductForm.quantity form)
    ∧ Product.price p
      = sqlite_real (default 0%float (ProductForm.price form))
    ∧ (image_field ≠ EmptyString → Product.image_url p = image_field)
    ∧ (image_field = EmptyString → flag = true →
       Product.image_url p = generate_product_image_url (Py.strip raw_name))
    ∧ (image_field = EmptyString → flag = false →
       Product.image_url p = Product.image_url product).
Proof.
  intros Hcu Hrole Hp Hown Hname Hq Hpr Hint Hnan. cbv zeta.
  unfold edit_product. rewrite (role_required_pass _ _ _ _ _ _ Hcu Hrole).
  rewrite Hp, Hown, Z.eqb_refl, Hname. simpl.
  rewrite (number_or_readable _ _ Hq), (number_or_readable _ _ Hpr).
  unfold ProductForm.quantity, ProductForm.price in Hint, Hnan.
  rewrite Hint, Hnan. simpl.
  eexists. split; [reflexivity|]. simpl. repeat split.
  - intros Hi%truthy_true_iff. by rewrite Hi.
  - intros -> ->. done.
  - intros -> ->. done.
Qed.

(** ** The new flag *)

Lemma is_new_order_of_products db db' farmer o :
  products db' = products db →
  is_new_order_of db' farmer o = is_new_order_of db farmer o.
Proof. intros H. unfold is_new_order_of. by rewrite H. Qed.

Lemma is_new_order_of_true db farmer o :
  is_new_order_of db farmer o = true
  ↔ order_on_product_of db farmer o ∧ Order.is_new o = true.
Proof.
  unfold is_new_order_of, order_on_product_of.
  destruct (products db !! Order.product_id o) as [p|]; split.
  - intros [Hf Hn]%andb_true_iff. apply Z.eqb_eq in Hf. eauto.
  - intros [(p' & [= <-] & Hf) Hn]. apply andb_true_iff.
    by rewrite Z.eqb_eq.
  - done.
  - by intros [(p' & ? & _) _].
Qed.

Lemma seen_not_new db farmer o :
  is_new_order_of db farmer
    (if is_new_order_of db farmer o then Order.set_is_new false o else o)
  = false.
Proof.
  destruct (is_new_order_of db farmer o) eqn:E; [|done].
  unfold is_new_order_of in *. simpl.
  destruct (products db !! Order.product_id o); [|done].
  apply andb_false_r.
Qed.

Lemma farmer_dashboard_farmer db session uid u :
  current_user db session = Some (uid, u) →
  User.role u = "farmer" →
  farmer_dashboard session db
  = (render_template "farmer_dashboard.html",
     mkDB (users db) (products db)
       ((λ o, if is_new_order_of db uid o
              then Order.set_is_new false o else o) <$> orders db)).
Proof.
  intros Hcu Hrole. unfold farmer_dashboard.
  by rewrite (role_required_pass _ _ _ _ _ _ Hcu Hrole).
Qed.

(** C6: a farmer's visit of the dashboard clears the new flag of every order
    on the farmer's products and leaves every other order, all products and
    all users as they are; right after it the count of new orders answered
    to that farmer is 0, and a second visit changes nothing at all. *)
Theorem mark_seen_clears_new db session uid u :
  current_user db session = Some (uid, u) →
  User.role u = "farmer" →
  let db1 := (farmer_dashboard session db).2 in
  users db1 = users db
  ∧ products db1 = products db
  ∧ (∀ i o, orders db !! i = Some o → order_on_product_of db uid o →
            orders db1 !! i = Some (Order.set_is_new false o))
  ∧ (∀ i o, orders db !! i = Some o → ¬ order_on_product_of db uid o →
            orders db1 !! i = Some o)
  ∧ (∀ i, orders db !! i = None → orders db1 !! i = None)
  ∧ new_orders_count session db1 = (jsonify 0, db1)
  ∧ (farmer_dashboard session db1).2 = db1.
Proof.
  intros Hcu Hrole. cbv zeta.
  rewrite (farmer_dashboard_farmer _ _ _ _ Hcu Hrole). simpl.
  set (seen := λ o, if is_new_order_of db uid o
                    then Order.set_is_new false o else o).
  set (db1 := mkDB (users db) (products db) (seen <$> orders db)).
  assert (current_user db1 session = Some (uid, u)) as Hcu1 by done.
  split; [done|]. split; [done|]. split; [|split; [|split; [|split]]].
  - intros i o Hi Hon. rewrite lookup_fmap, Hi. simpl. f_equal.
    unfold seen. destruct (is_new_order_of db uid o) eqn:E; [done|].
    destruct (Order.is_new o) eqn:En.
    + assert (is_new_order_of db uid o = true) as E'
        by by apply is_new_order_of_true. congruence.
    + destruct o; simpl in *. by rewrite En.
  - intros i o Hi Hon. rewrite lookup_fmap, Hi. simpl. f_equal.
    unfold seen. destruct (is_new_order_of db uid o) eqn:E; [|done].
    apply is_new_order_of_true in E as [? _]. done.
  - intros i Hi. by rewrite lookup_fmap, Hi.
  - unfold new_orders_count.
    rewrite (role_required_pass _ _ _ _ _ _ Hcu1 Hrole). do 2 f_equal.
    apply map_size_empty_iff, map_empty. intros i.
    apply map_lookup_filter_None. right. intros o Ho. simpl.
    unfold db1 in Ho. simpl in Ho. rewrite lookup_fmap in Ho.
    destruct (orders db !! i) as [o'|]; [|done].
    injection Ho as <-.
    rewrite (is_new_order_of_products db db1) by done.
    unfold seen. by rewrite seen_not_new.
  - rewrite (farmer_dashboard_farmer _ _ _ _ Hcu1 Hrole). simpl.
    unfold db1. f_equal. apply map_eq. intros i. rewrite !lookup_fmap.
    destruct (orders db !! i) as [o|]; [|done]. simpl. f_equal.
    rewrite (is_new_order_of_products db) by done.
    unfold seen. by rewrite seen_not_new.
Qed.

Section Properties.

Variable generate_password_hash : string → string → string.

(** ** The primary administrator *)

(** C8: the edit-user route never changes the account whose username is
    "admin": an administrator who targets it is answered that the primary
    system administrator account cannot be modified, and whoever asks,
    whatever the method and the form, the database is as before.  The
    account of any other username is rewritten by an administrator's
    post: name, username and contact number stripped, the role as
    submitted, and a new password hash exactly when a password is
    submitted (the update goes through when the form has the four text
    fields and the new username is no other row's). *)
Theorem primary_admin_protected
    db session aid a pid protected oid other form
    raw_name raw_username raw_contact role salt :
  current_user db session = Some (aid, a) →
  User.role a = "admin" →
  users db !! pid = Some protected →
  User.username protected = "admin" →
  users db !! oid = Some other →
  User.username other ≠ "admin" →
  UserForm.name form = Some raw_name →
  UserForm.username form = Some raw_username →
  UserForm.contact_number form = Some raw_contact →
  UserForm.role form = Some role →
  username_clash db oid (Py.strip raw_username) = false →
  (∀ method form' salt',
     admin_edit_user generate_password_hash pid method form' salt' session db
     = (redirect
          (Some ("Cannot modify the primary system administrator account.",
                 "danger"))
          ep_admin_users, db))
  ∧ (∀ method form' salt' session',
       (admin_edit_user generate_password_hash pid method form' salt'
          session' db).2 = db)
  ∧ admin_edit_user generate_password_hash oid POST form salt session db
    = (redirect
         (Some ("User " +:+ Py.strip raw_username
                +:+ " updated successfully.", "success"))
         ep_admin_users,
       mkDB
         (<[oid :=
              User.mk (Py.strip raw_username)
                (if Py.truthy_opt (UserForm.password form)
                 then generate_password_hash salt
                        (default EmptyString (UserForm.password form))
                 else User.password_hash other)
                role (Py.strip raw_name) (Py.strip raw_contact)]>
            (users db))
         (products db) (orders db)).
Proof.
  intros Hcu Hadmin Hp Hpn Ho Hon Hn Hu Hc Hr Hclash.
  split; [|split].
  - intros method form' salt'. unfold admin_edit_user.
    rewrite (role_required_pass _ _ _ _ _ _ Hcu Hadmin).
    by rewrite Hp, Hpn.
  - intros method form' salt' session'. unfold admin_edit_user.
    match goal with
    | |- (role_required ?r ?f ?s ?d).2 = _ =>
        destruct (role_required_unchanged_or r f s d)
          as [H | (uid & u & _ & _ & ->)]
    end; [exact H|]. by rewrite Hp, Hpn.
  - unfold admin_edit_user.
    rewrite (role_required_pass _ _ _ _ _ _ Hcu Hadmin). rewrite Ho.
    apply String.eqb_neq in Hon. rewrite Hon, Hn, Hu, Hc, Hr, Hclash.
    done.
Qed.

(** ** The demo data *)

Lemma create_demo_data_seeded salts utcnow db i u :
  users db !! i = Some u →
  create_demo_data generate_password_hash salts utcnow db = db.
Proof.
  intros Hi. unfold create_demo_data.
  destruct (map_to_list (users db)) eqn:E; [|done].
  apply map_to_list_empty_iff in E. by rewrite E, lookup_empty in Hi.
Qed.

Lemma create_demo_data_fresh s1 s2 s3 t1 t2 t3 t4 db :
  users db = ∅ →
  let k1 := next_id (products db) in
  let p1 := Product.mk 2 "Tomatoes" "Fresh red tomatoes" 100 30%float t1
              "/static/images/ai_tomatoes.jpg" in
  let p2 := Product.mk 2 "Spinach" "Leafy spinach" 50 20%float t2
              "/static/images/ai_spinach.jpg" in
  let p3 := Product.mk 2 "Cabbage" "Crisp green cabbage" 40 25%float t3
              "/static/images/ai_cabbage.jpg" in
  create_demo_data generate_password_hash (s1, s2, s3) (t1, t2, t3, t4) db
  = mkDB
      (<[3 := User.mk "cust1" (generate_password_hash s3 "custpass")
                "customer" "Bob Customer" "9998887776"]>
         (<[2 := User.mk "farmer1" (generate_password_hash s2 "farmerpass")
                   "farmer" "Alice Farmer" "9876543210"]>
            (<[1 := User.mk "admin" (generate_password_hash s1 "123")
                      "admin" "System Admin" "0000000000"]> ∅)))
      (insert_row p3 (insert_row p2 (insert_row p1 (products db)).2).2).2
      (insert_row (Order.mk 3 k1 5 150%float t4 false) (orders db)).2.
Proof.
  intros He. unfold create_demo_data. rewrite He, map_to_list_empty.
  reflexivity.
Qed.

(** C9: [create_demo_data] leaves a database that has a user as it is.  On
    a database without users it writes exactly the three users admin,
    farmer1 and cust1 under the keys 1, 2 and 3, adds exactly three
    products of farmer1 (Tomatoes 100 at 30.0, Spinach 50 at 20.0, Cabbage
    40 at 25.0) under three distinct free keys, and adds exactly one order,
    of cust1 for 5 Tomatoes at 150.0 and not new, under a free key.
    Running it again, with any salts and clock, changes nothing. *)
Theorem demo_data_idempotent s1 s2 s3 t1 t2 t3 t4 db0 db1 i u :
  users db0 = ∅ →
  users db1 !! i = Some u →
  let seed := create_demo_data generate_password_hash (s1, s2, s3)
                (t1, t2, t3, t4) in
  let p1 k := Product.mk k "Tomatoes" "Fresh red tomatoes" 100 30%float t1
                "/static/images/ai_tomatoes.jpg" in
  let p2 k := Product.mk k "Spinach" "Leafy spinach" 50 20%float t2
                "/static/images/ai_spinach.jpg" in
  let p3 k := Product.mk k "Cabbage" "Crisp green cabbage" 40 25%float t3
                "/static/images/ai_cabbage.jpg" in
  let seeded_users : gmap Z User.t :=
    <[3 := User.mk "cust1" (generate_password_hash s3 "custpass")
             "customer" "Bob Customer" "9998887776"]>
      (<[2 := User.mk "farmer1" (generate_password_hash s2 "farmerpass")
                "farmer" "Alice Farmer" "9876543210"]>
         (<[1 := User.mk "admin" (generate_password_hash s1 "123")
                   "admin" "System Admin" "0000000000"]> ∅)) in
  seed db1 = db1
  ∧ users (seed db0) = seeded_users
  ∧ size (users (seed db0)) = 3%nat
  ∧ (∃ k1 k2 k3 k,
       products db0 !! k1 = None ∧ products db0 !! k2 = None
       ∧ products db0 !! k3 = None ∧ k1 ≠ k2 ∧ k1 ≠ k3 ∧ k2 ≠ k3
       ∧ products (seed db0)
         = <[k3 := p3 2]> (<[k2 := p2 2]> (<[k1 := p1 2]> (products db0)))
       ∧ orders db0 !! k = None
       ∧ orders (seed db0)
         = <[k := Order.mk 3 k1 5 150%float t4 false]> (orders db0))
  ∧ size (products (seed db0)) = (3 + size (products db0))%nat
  ∧ size (orders (seed db0)) = (1 + size (orders db0))%nat
  ∧ (∀ db salts' utcnow',
       create_demo_data generate_password_hash salts' utcnow' (seed db)
       = seed db)
  ∧ seed empty_db
    = mkDB seeded_users (<[3 := p3 2]> (<[2 := p2 2]> (<[1 := p1 2]> ∅)))
        (<[1 := Order.mk 3 1 5 150%float t4 false]> ∅).
Proof.
  intros He Hi. cbv zeta.
  split; [by eapply create_demo_data_seeded|].
  rewrite (create_demo_data_fresh _ _ _ _ _ _ _ _ He). cbv zeta. simpl.
  split; [done|]. split; [done|]. split; [|split; [|split; [|split]]].
  - set (m0 := products db0).
    set (k1 := next_id m0).
    set (m1 := <[k1 := Product.mk 2 "Tomatoes" "Fresh red tomatoes" 100
                         30%float t1 "/static/images/ai_tomatoes.jpg"]> m0).
    set (k2 := next_id m1).
    set (m2 := <[k2 := Product.mk 2 "Spinach" "Leafy spinach" 50 20%float t2
                         "/static/images/ai_spinach.jpg"]> m1).
    set (k3 := next_id m2).
    assert (m0 !! k1 = None) as H1 by apply next_id_fresh.
    assert (m1 !! k2 = None) as H2 by apply next_id_fresh.
    assert (m2 !! k3 = None) as H3 by apply next_id_fresh.
    apply lookup_insert_None in H2 as [H2 N12].
    apply lookup_insert_None in H3 as [H3 N23].
    apply lookup_insert_None in H3 as [H3 N13].
    exists k1, k2, k3, (next_id (orders db0)).
    repeat split; try done. apply next_id_fresh.
  - by rewrite !map_size_insert_None by apply next_id_fresh.
  - by rewrite !map_size_insert_None by apply next_id_fresh.
  - intros db salts' utcnow'.
    unfold create_demo_data at 1.
    destruct (map_to_list (users _)) as [|kv l] eqn:E; [|done].
    exfalso. apply map_to_list_empty_iff in E. revert E.
    unfold create_demo_data.
    destruct (map_to_list (users db)) as [|kv l] eqn:E'.
    + simpl. apply insert_non_empty.
    + intros E. by rewrite E, map_to_list_empty in E'.
  - reflexivity.
Qed.

(** ** Usernames *)

Lemma username_taken_true db n :
  username_taken db n = true
  ↔ ∃ i u, users db !! i = Some u ∧ User.username u = n.
Proof. unfold username_taken. by rewrite bool_decide_eq_true. Qed.

Lemma username_taken_false db n j v :
  username_taken db n = false → users db !! j = Some v →
  User.username v ≠ n.
Proof.
  intros Ht Hj Hn. apply not_true_iff_false in Ht. apply Ht.
  apply username_taken_true. eauto.
Qed.

Lemma username_clash_false db k n j v :
  username_clash db k n = false → j ≠ k → users db !! j = Some v →
  User.username v ≠ n.
Proof.
  unfold username_clash. rewrite bool_decide_eq_false.
  intros Hc Hjk Hj Hn. apply Hc. exists j, v. eauto.
Qed.

Lemma unique_insert (us : gmap Z User.t) k u :
  (∀ i j a b, us !! i = Some a → us !! j = Some b →
              User.username a = User.username b → i = j) →
  (∀ j v, j ≠ k → us !! j = Some v →
          User.username v ≠ User.username u) →
  ∀ i j a b, <[k := u]> us !! i = Some a → <[k := u]> us !! j = Some b →
             User.username a = User.username b → i = j.
Proof.
  intros Huniq Hfree i j a b Hi Hj Hab.
  apply lookup_insert_Some in Hi as [[<- <-]|[Hik Hi]];
    apply lookup_insert_Some in Hj as [[<- <-]|[Hjk Hj]]; try done.
  - exfalso. by eapply (Hfree j b).
  - exfalso. by eapply (Hfree i a).
  - by eapply Huniq.
Qed.

Lemma register_unique method form salt session db :
  usernames_unique db →
  usernames_unique
    (register generate_password_hash method form salt session db).2.
Proof.
  intros Hu. unfold register. repeat case_match; try done.
  unfold usernames_unique; simpl. apply unique_insert; [exact Hu|].
  intros j v _ Hj. simpl. by eapply username_taken_false.
Qed.

Lemma admin_edit_user_unique user_id method form salt session db :
  usernames_unique db →
  usernames_unique
    (admin_edit_user generate_password_hash user_id method form salt session
       db).2.
Proof.
  intros Hu. unfold admin_edit_user, role_required.
  repeat case_match; try done.
  all: unfold usernames_unique; simpl; apply unique_insert; [exact Hu|].
  all: intros j v Hjk Hj; simpl; by eapply username_clash_false.
Qed.

Lemma create_demo_data_unique salts utcnow db :
  usernames_unique db →
  usernames_unique (create_demo_data generate_password_hash salts utcnow db).
Proof.
  intros Hu. destruct salts as [[s1 s2] s3], utcnow as [[[t1 t2] t3] t4].
  destruct (map_to_list (users db)) as [|[i u] l] eqn:E.
  - apply map_to_list_empty_iff in E.
    rewrite (create_demo_data_fresh _ _ _ _ _ _ _ _ E).
    unfold usernames_unique; simpl.
    repeat apply unique_insert;
      try (intros ???? H; by rewrite lookup_empty in H).
    all: intros j v _ Hl.
    all: repeat (apply lookup_insert_Some in Hl as [[_ <-]|[_ Hl]]; [done|]).
    all: by rewrite lookup_empty in Hl.
  - rewrite (create_demo_data_seeded _ _ _ i u); [done|].
    apply elem_of_map_to_list. rewrite E. left.
Qed.

Lemma handle_users_other r session db :
  match r with
  | Register _ _ _ | AdminEditUser _ _ _ _ => False
  | _ => True
  end →
  users (handle generate_password_hash r session db).2 = users db.
Proof.
  destruct r; try done; intros _; simpl;
    unfold farmer_dashboard, add_product, edit_product, delete_product,
      order_product, role_required, login_required;
    repeat case_match; done.
Qed.

Lemma apply_event_unique e db :
  usernames_unique db →
  usernames_unique (apply_event generate_password_hash db e).
Proof.
  intros Hu. destruct e as [salts utcnow | session r]; simpl.
  - by apply create_demo_data_unique.
  - destruct r;
      [by apply register_unique | .. | by apply admin_edit_user_unique];
      unfold usernames_unique; by rewrite handle_users_other.
Qed.

Lemma run_unique es db :
  usernames_unique db → usernames_unique (run generate_password_hash es db).
Proof.
  revert db. induction es as [|e es IH]; intros db Hu; [done|].
  simpl. apply IH. by apply apply_event_unique.
Qed.

Lemma register_success method form salt session db :
  (register generate_password_hash method form salt session db).1
  = redirect (Some ("Registration successful. Please log in.", "success"))
      ep_login →
  ∃ raw u,
    RegisterForm.username form = Some raw
    ∧ Py.truthy (Py.strip raw) = true
    ∧ User.username u = Py.strip raw
    ∧ (register generate_password_hash method form salt session db).2
      = mkDB (<[next_id (users db) := u]> (users db)) (products db)
          (orders db).
Proof.
  unfold register. repeat case_match; try done. intros _.
  match goal with H : _ || _ = false |- _ => rename H into Hv end.
  repeat (apply orb_false_iff in Hv as [Hv ?]).
  apply negb_false_iff in Hv.
  eexists _, _; split_and!; [done | exact Hv | | done]; done.
Qed.

Lemma register_taken_unchanged method form salt session db raw :
  RegisterForm.username form = Some raw →
  username_taken db (Py.strip raw) = true →
  (register generate_password_hash method form salt session db).2 = db.
Proof.
  intros Hraw Ht. unfold register. rewrite Hraw.
  repeat case_match; simplify_eq; done.
Qed.

(** C5: once a registration has gone through, a later registration request
    whose stripped username is the same creates no user: the database is
    as the first left it.  When the request is an anonymous post with
    password, name and contact number filled in and role farmer or
    customer, the answer is that the username is already taken; when one of
    these fields is missing or blank, or the role is another one, the
    answer is that all required fields must be filled, since the handler
    checks the fields first.  More generally no registration request writes
    anything when some user already holds its stripped username.  And from
    a database in which usernames are unique, as the empty one is, no run
    of the application reaches one in which two users share a username. *)
Theorem register_duplicate_username
    db session1 form1 salt1 raw1 session2 method2 form2 salt2 raw2 :
  let r1 := register generate_password_hash POST form1 salt1 session1 db in
  r1.1 = redirect (Some ("Registration successful. Please log in.",
                         "success")) ep_login →
  RegisterForm.username form1 = Some raw1 →
  RegisterForm.username form2 = Some raw2 →
  Py.strip raw2 = Py.strip raw1 →
  let r2 :=
    register generate_password_hash method2 form2 salt2 session2 r1.2 in
  r2.2 = r1.2
  ∧ (current_user r1.2 session2 = None → method2 = POST →
     Py.truthy_opt (RegisterForm.password form2) = true →
     self_service_role (RegisterForm.role form2) = true →
     Py.strip (form_get (RegisterForm.name form2)) ≠ EmptyString →
     Py.strip (form_get (RegisterForm.contact_number form2))
     ≠ EmptyString →
     r2.1 = redirect (Some ("Username already taken", "warning"))
              ep_register)
  ∧ (current_user r1.2 session2 = None → method2 = POST →
     Py.truthy_opt (RegisterForm.password form2) = false
     ∨ self_service_role (RegisterForm.role form2) = false
     ∨ Py.strip (form_get (RegisterForm.name form2)) = EmptyString
     ∨ Py.strip (form_get (RegisterForm.contact_number form2))
       = EmptyString →
     r2.1 = redirect (Some ("All required fields must be filled", "danger"))
              ep_register)
  ∧ (∀ method form salt session db0 raw i u,
       RegisterForm.username form = Some raw →
       users db0 !! i = Some u → User.username u = Py.strip raw →
       (register generate_password_hash method form salt session db0).2
       = db0)
  ∧ (∀ es db0, usernames_unique db0 →
               usernames_unique (run generate_password_hash es db0))
  ∧ (∀ es, usernames_unique (run generate_password_hash es empty_db)).
Proof.
  intros r1 Hok Hraw1 Hraw2 Hsame r2.
  destruct (register_success _ _ _ _ _ Hok)
    as (raw & u & Hraw & Htr & Hun & Hdb).
  fold r1 in Hdb. rewrite Hraw1 in Hraw. injection Hraw as <-.
  assert (username_taken r1.2 (Py.strip raw2) = true) as Htaken.
  { apply username_taken_true. exists (next_id (users db)), u.
    rewrite Hdb. simpl. rewrite lookup_insert_eq. by rewrite Hsame. }
  split; [by eapply register_taken_unchanged|].
  split; [|split; [|split; [|split]]].
  - intros Hanon -> Hpw Hrole Hname%truthy_true_iff Hcontact%truthy_true_iff.
    unfold r2, register.
    rewrite Hanon, Hraw2, Hsame, Htr, Hpw, Hrole, Hname, Hcontact. simpl.
    rewrite <- Hsame. by rewrite Htaken.
  - intros Hanon -> Hbad. unfold r2, register. rewrite Hanon, Hraw2.
    cbv zeta.
    destruct Hbad as [Hbad | [Hbad | [Hbad | Hbad]]]; rewrite Hbad; simpl;
      by rewrite ?orb_true_r.
  - intros method form salt session db0 raw' i u' Hf Hi Hu'.
    eapply register_taken_unchanged; [exact Hf|].
    apply username_taken_true. eauto.
  - intros es db0. by apply run_unique.
  - intros es. apply run_unique. intros i j a b H. simpl in H.
    by rewrite lookup_empty in H.
Qed.

(** ** Stock *)

Lemma create_demo_data_stock salts utcnow db :
  stock_nonneg db →
  stock_nonneg (create_demo_data generate_password_hash salts utcnow db).
Proof.
  intros Hs. destruct salts as [[s1 s2] s3], utcnow as [[[t1 t2] t3] t4].
  destruct (map_to_list (users db)) as [|[i u] l] eqn:E.
  - apply map_to_list_empty_iff in E.
    rewrite (create_demo_data_fresh _ _ _ _ _ _ _ _ E).
    unfold stock_nonneg; simpl.
    repeat (apply map_Forall_insert_2; [simpl; lia|]). exact Hs.
  - rewrite (create_demo_data_seeded _ _ _ i u); [done|].
    apply elem_of_map_to_list. rewrite E. left.
Qed.

Lemma order_product_stock product_id method form utcnow session db :
  stock_nonneg db →
  stock_nonneg (order_product product_id method form utcnow session db).2.
Proof.
  intros Hs. unfold order_product, login_required.
  repeat case_match; try done.
  unfold stock_nonneg; simpl.
  apply map_Forall_insert_2; [simpl; lia | exact Hs].
Qed.

Lemma apply_event_stock e db :
  submits_nonneg e → stock_nonneg db →
  stock_nonneg (apply_event generate_password_hash db e).
Proof.
  intros He Hs. destruct e as [salts utcnow | session r]; simpl.
  - by apply create_demo_data_stock.
  - destruct r; simpl in *.
    + unfold register. repeat case_match; done.
    + unfold farmer_dashboard, role_required. repeat case_match; done.
    + unfold add_product, role_required. repeat case_match; try done.
      all: match goal with
           | H : number_or 0 _ = Some _ |- _ =>
               apply number_or_Some in H as [_ ->]
           end.
      all: unfold stock_nonneg; simpl.
      all: by apply map_Forall_insert_2.
    + unfold edit_product, role_required. repeat case_match; try done.
      all: match goal with
           | H : number_or 0 _ = Some _ |- _ =>
               apply number_or_Some in H as [_ ->]
           end.
      all: unfold stock_nonneg; simpl.
      all: by apply map_Forall_insert_2.
    + unfold delete_product, role_required. repeat case_match; try done.
      unfold stock_nonneg; simpl. by apply map_Forall_delete.
    + by apply order_product_stock.
    + unfold admin_edit_user, role_required. repeat case_match; done.
Qed.

Lemma order_product_quantity product_id method form utcnow session db k p :
  products db !! k = Some p →
  0 ≤ Product.quantity p →
  ∃ p', products (order_product product_id method form utcnow session db).2
        !! k = Some p'
        ∧ 0 ≤ Product.quantity p' ≤ Product.quantity p.
Proof.
  intros Hk Hp. unfold order_product, login_required.
  repeat case_match; try (exists p; split; [done | lia]).
  simpl. destruct (decide (k = product_id)) as [->|Hne].
  - rewrite lookup_insert_eq. eexists. split; [done|]. simpl.
    simplify_eq. lia.
  - rewrite lookup_insert_ne by done. exists p. split; [done | lia].
Qed.

(** C3, as the code has it: the add and edit routes store the submitted
    quantity as it is, so the quantities stay non-negative through every
    run in which no negative quantity is submitted to them, starting from
    a database whose quantities are non-negative, as the empty one is.
    Orders alone never take a product's quantity below zero: through any
    run of order requests a product that has a non-negative quantity
    keeps one, no larger than before. *)
Theorem stock_nonneg_preserved es db :
  Forall submits_nonneg es →
  stock_nonneg db →
  stock_nonneg (run generate_password_hash es db)
  ∧ (∀ os db0 k p,
       Forall is_order_request os →
       products db0 !! k = Some p →
       0 ≤ Product.quantity p →
       ∃ p', products (run generate_password_hash os db0) !! k = Some p'
             ∧ 0 ≤ Product.quantity p' ≤ Product.quantity p).
Proof.
  intros Hes Hs. split.
  - revert db Hs. induction Hes as [|e es He Hes IH]; intros db Hs; [done|].
    simpl. apply IH. by apply apply_event_stock.
  - clear. intros os. induction os as [|e os IH]; intros db0 k p Hos Hk Hp.
    + exists p. split; [done | lia].
    + apply Forall_cons in Hos as [He Hos].
      destruct e as [|session r]; [done|]. destruct r; try done.
      simpl.
      destruct (order_product_quantity product_id method form utcnow
                  session db0 k p Hk Hp) as (p1 & Hk1 & Hp1).
      destruct (IH _ k p1 Hos Hk1 ltac:(lia)) as (p' & Hk' & Hp').
      exists p'. split; [done | lia].
Qed.

End Properties.

(** ** The properties at work on the sample data *)

Lemma place_order_success_witness :
  let result :=
    order_product 1 POST (OrderForm.mk (Some 5)) 10 (Some 3) demo_db in
  current_user demo_db (Some 3) = Some (3, cust1_row)
  ∧ products demo_db !! 1 = Some tomatoes_row
  ∧ 0 < 5 ≤ Product.quantity tomatoes_row
  ∧ result.1
    = redirect (Some ("Order placed successfully", "success")) ep_my_orders
  ∧ orders result.2
    = <[2 := Order.mk 3 1 5 150%float 10 true]> (orders demo_db)
  ∧ products result.2
    = <[1 := Product.set_quantity 95 tomatoes_row]> (products demo_db).
Proof.
  destruct (place_order_success demo_db (Some 3) 3 cust1_row 1 tomatoes_row
              5 10) as (H1 & _ & H3 & _ & H5 & _);
    [reflexivity | reflexivity | reflexivity | simpl; lia |].
  cbv zeta. split; [reflexivity|]. split; [reflexivity|].
  split; [simpl; lia|]. split; [exact H1|]. split; [exact H3 | exact H5].
Defined.

Lemma place_order_rejected_witness :
  current_user demo_db (Some 3) = Some (3, cust1_row)
  ∧ products demo_db !! 1 = Some tomatoes_row
  ∧ 200 > Product.quantity tomatoes_row
  ∧ order_product 1 POST (OrderForm.mk (Some 200)) 10 (Some 3) demo_db
    = (redirect (Some ("Not enough stock available", "danger"))
         (ep_order_product 1), demo_db)
  ∧ order_product 1 POST (OrderForm.mk (Some (-2))) 10 (Some 3) demo_db
    = (redirect (Some ("Invalid quantity", "danger")) (ep_order_product 1),
       demo_db).
Proof.
  split; [reflexivity|]. split; [reflexivity|]. split; [simpl; lia|]. split.
  - apply (place_order_rejected demo_db (Some 3) 3 cust1_row 1 tomatoes_row
             (OrderForm.mk (Some 200)) 10);
      [reflexivity | reflexivity | reflexivity | simpl; lia | simpl; lia].
  - apply (place_order_rejected demo_db (Some 3) 3 cust1_row 1 tomatoes_row
             (OrderForm.mk (Some (-2))) 10);
      [reflexivity | reflexivity | reflexivity | simpl; lia].
Defined.

(** The seeded farmer lists a product with quantity -5; cust1 then asks for
    0 of it: the quantity asked exceeds the stock, and the answer is not the
    lack of stock but the invalid quantity. *)
Lemma place_order_above_negative_stock :
  short_db
  = run sample_hash
      [Startup ("s1", "s2", "s3") (1, 2, 3, 4);
       Request (Some 2) (AddProduct POST beetroot_form 5)] empty_db
  ∧ current_user short_db (Some 3) = Some (3, cust1_row)
  ∧ User.role cust1_row = "customer"
  ∧ ∃ product,
      products short_db !! 4 = Some product
      ∧ 0 > Product.quantity product
      ∧ (order_product 4 POST (OrderForm.mk (Some 0)) 6 (Some 3) short_db).1
        = redirect (Some ("Invalid quantity", "danger")) (ep_order_product 4)
      ∧ (order_product 4 POST (OrderForm.mk (Some 0)) 6 (Some 3) short_db).1
        ≠ redirect (Some ("Not enough stock available", "danger"))
            (ep_order_product 4).
Proof.
  split; [reflexivity|]. split; [reflexivity|]. split; [reflexivity|].
  eexists. split; [reflexivity|]. split; [simpl; lia|].
  split; [reflexivity | discriminate].
Qed.

Lemma stock_nonneg_preserved_witness :
  let es :=
    [Request (Some 2)
       (AddProduct POST
          (ProductForm.mk (Some "Beetroot") None (field_number 7)
             (field_number 10%float) None None) 5);
     Request (Some 3) (OrderProduct 1 POST (OrderForm.mk (Some 5)) 10)] in
  Forall submits_nonneg es
  ∧ stock_nonneg demo_db
  ∧ stock_nonneg (run sample_hash es demo_db).
Proof.
  cbv zeta.
  assert (Forall submits_nonneg
            [Request (Some 2)
               (AddProduct POST
                  (ProductForm.mk (Some "Beetroot") None (field_number 7)
                     (field_number 10%float) None None) 5);
             Request (Some 3)
               (OrderProduct 1 POST (OrderForm.mk (Some 5)) 10)])
    as Hes by (repeat constructor; simpl; lia).
  assert (stock_nonneg demo_db) as Hdb
    by (unfold stock_nonneg; apply (bool_decide_unpack _); vm_compute;
        exact I).
  split; [exact Hes|]. split; [exact Hdb|].
  exact (proj1 (stock_nonneg_preserved sample_hash _ demo_db Hes Hdb)).
Defined.

(** From the seeded database, one add-product request of the seeded farmer
    with quantity -5 leaves a product whose quantity is negative. *)
Lemma add_product_negative_quantity :
  let es := [Request (Some 2) (AddProduct POST beetroot_form 5)] in
  stock_nonneg demo_db
  ∧ (∃ p, products (run sample_hash es demo_db) !! 4 = Some p
          ∧ Product.quantity p = -5)
  ∧ ¬ stock_nonneg (run sample_hash es demo_db).
Proof.
  cbv zeta. split; [|split].
  - unfold stock_nonneg. apply (bool_decide_unpack _). vm_compute. exact I.
  - eexists. split; reflexivity.
  - intros H. specialize (H 4 _ eq_refl). simpl in H. lia.
Qed.

Lemma non_owner_forbidden_witness :
  current_user two_farmers_db (Some 4) = Some (4, farmer2_row)
  ∧ products two_farmers_db !! 1 = Some tomatoes_row
  ∧ Product.farmer_id tomatoes_row ≠ 4
  ∧ edit_product 1 POST beetroot_form (Some 4) two_farmers_db
    = (abort 403, two_farmers_db)
  ∧ delete_product 1 (Some 4) two_farmers_db = (abort 403, two_farmers_db).
Proof.
  split; [reflexivity|]. split; [reflexivity|]. split; [simpl; lia|].
  apply (non_owner_forbidden two_farmers_db (Some 4) 4 farmer2_row 1
           tomatoes_row POST beetroot_form);
    [reflexivity | reflexivity | simpl; lia].
Defined.

(** farmer2 registers.  A second registration with the same username and
    no password is answered that all required fields must be filled, not
    that the username is taken.  And once the administrator has given
    farmer2 another username, a registration with the username farmer2 goes
    through and adds a fifth user. *)
Lemma register_same_username_other_answer :
  let again :=
    RegisterForm.mk (Some "farmer2") None (Some "farmer") (Some "Carol")
      (Some "5550001111") in
  let rename :=
    UserForm.mk (Some "Carol") (Some "carol") (Some "5550001111")
      (Some "farmer") None in
  let renamed_db :=
    (admin_edit_user sample_hash 4 POST rename "s5" (Some 1)
       two_farmers_db).2 in
  register sample_hash POST farmer2_form "s4" None demo_db
  = (redirect (Some ("Registration successful. Please log in.", "success"))
       ep_login, two_farmers_db)
  ∧ RegisterForm.username again = RegisterForm.username farmer2_form
  ∧ register sample_hash POST again "s5" None two_farmers_db
    = (redirect (Some ("All required fields must be filled", "danger"))
         ep_register, two_farmers_db)
  ∧ (register sample_hash POST again "s5" None two_farmers_db).1
    ≠ redirect (Some ("Username already taken", "warning")) ep_register
  ∧ users renamed_db !! 4
    = Some (User.mk "carol" "s4$pw" "farmer" "Carol" "5550001111")
  ∧ (register sample_hash POST farmer2_form "s6" None renamed_db).1
    = redirect (Some ("Registration successful. Please log in.", "success"))
        ep_login
  ∧ users (register sample_hash POST farmer2_form "s6" None renamed_db).2
    !! 5
    = Some (User.mk "farmer2" "s6$pw" "farmer" "Carol" "5550001111").
Proof.
  cbv zeta. split_and!; try reflexivity. discriminate.
Qed.

Lemma register_duplicate_username_witness :
  let again :=
    RegisterForm.mk (Some "  farmer2 ") (Some "other") (Some "customer")
      (Some "Dave") (Some "5550002222") in
  two_farmers_db = (register sample_hash POST farmer2_form "s4" None demo_db).2
  ∧ users two_farmers_db !! 4 = Some farmer2_row
  ∧ Py.strip "  farmer2 " = Py.strip "farmer2"
  ∧ register sample_hash POST again "s5" None two_farmers_db
    = (redirect (Some ("Username already taken", "warning")) ep_register,
       two_farmers_db).
Proof.
  cbv zeta. split; [reflexivity|]. split; [reflexivity|].
  split; [reflexivity|].
  destruct (register_duplicate_username sample_hash demo_db None farmer2_form
              "s4" "farmer2" None POST
              (RegisterForm.mk (Some "  farmer2 ") (Some "other")
                 (Some "customer") (Some "Dave") (Some "5550002222"))
              "s5" "  farmer2 ")
    as (Hdb & Hresp & _);
    [reflexivity | reflexivity | reflexivity | reflexivity |].
  apply injective_projections; [|exact Hdb].
  apply Hresp; [reflexivity | reflexivity | reflexivity | reflexivity
               | discriminate | discriminate].
Defined.

Lemma mark_seen_clears_new_witness :
  current_user ordered_db (Some 2) = Some (2, farmer1_row)
  ∧ new_orders_count (Some 2) ordered_db = (jsonify 1, ordered_db)
  ∧ let db1 := (farmer_dashboard (Some 2) ordered_db).2 in
    new_orders_count (Some 2) db1 = (jsonify 0, db1)
    ∧ (farmer_dashboard (Some 2) db1).2 = db1.
Proof.
  split; [reflexivity|]. split; [reflexivity|].
  destruct (mark_seen_clears_new ordered_db (Some 2) 2 farmer1_row)
    as (_ & _ & _ & _ & _ & Hcount & Hagain); [reflexivity | reflexivity |].
  split; [exact Hcount | exact Hagain].
Defined.

Lemma image_url_derivation_witness :
  let form :=
    ProductForm.mk (Some " Fresh Tomatoes ") (Some "ripe") (field_number 12)
      (field_number 35%float) (Some "  ") None in
  current_user demo_db (Some 2) = Some (2, farmer1_row)
  ∧ Py.strip " Fresh Tomatoes " ≠ EmptyString
  ∧ ∃ p,
      add_product POST form 9 (Some 2) demo_db
      = (redirect (Some ("Product added", "success")) ep_farmer_dashboard,
         mkDB (users demo_db) (<[4 := p]> (products demo_db))
           (orders demo_db))
      ∧ Product.image_url p = "/static/images/ai_tomatoes.jpg".
Proof.
  cbv zeta. split; [reflexivity|]. split; [discriminate|].
  destruct (image_url_derivation demo_db (Some 2) 2 farmer1_row
              (ProductForm.mk (Some " Fresh Tomatoes ") (Some "ripe")
                 (field_number 12) (field_number 35%float) (Some "  ") None)
              " Fresh Tomatoes " 9)
    as (_ & _ & _ & Hrow & Hadd);
    [reflexivity | reflexivity | reflexivity | discriminate |].
  destruct Hadd as [p Hadd];
    [discriminate | discriminate | reflexivity | reflexivity |].
  exists p. split; [exact Hadd|].
  destruct (Hrow 4 p) as (_ & Hderived & _);
    [rewrite Hadd; apply lookup_insert_eq | reflexivity |].
  rewrite Hderived; reflexivity.
Defined.

Lemma primary_admin_protected_witness :
  let form :=
    UserForm.mk (Some "Bob C.") (Some "bob") (Some "111") (Some "farmer")
      (Some EmptyString) in
  current_user demo_db (Some 1) = Some (1, admin_row)
  ∧ users demo_db !! 3 = Some cust1_row
  ∧ admin_edit_user sample_hash 1 POST form "s9" (Some 1) demo_db
    = (redirect
         (Some ("Cannot modify the primary system administrator account.",
                "danger")) ep_admin_users, demo_db)
  ∧ admin_edit_user sample_hash 3 POST form "s9" (Some 1) demo_db
    = (redirect (Some ("User bob updated successfully.", "success"))
         ep_admin_users,
       mkDB (<[3 := User.mk "bob" "s3$custpass" "farmer" "Bob C." "111"]>
               (users demo_db))
         (products demo_db) (orders demo_db)).
Proof.
  cbv zeta. split; [reflexivity|]. split; [reflexivity|].
  destruct (primary_admin_protected sample_hash demo_db (Some 1) 1 admin_row
              1 admin_row 3 cust1_row
              (UserForm.mk (Some "Bob C.") (Some "bob") (Some "111")
                 (Some "farmer") (Some EmptyString))
              "Bob C." "bob" "111" "farmer" "s9")
    as (Hprot & _ & Hother);
    [reflexivity | reflexivity | reflexivity | reflexivity | reflexivity
    | discriminate | reflexivity | reflexivity | reflexivity | reflexivity
    | reflexivity |].
  split; [apply Hprot | exact Hother].
Defined.

Lemma demo_data_idempotent_witness :
  users empty_db = ∅
  ∧ users demo_db !! 1 = Some admin_row
  ∧ create_demo_data sample_hash ("a", "b", "c") (5, 6, 7, 8) demo_db
    = demo_db
  ∧ size (users demo_db) = 3%nat
  ∧ size (products demo_db) = 3%nat
  ∧ size (orders demo_db) = 1%nat.
Proof.
  split; [reflexivity|]. split; [reflexivity|].
  destruct (demo_data_idempotent sample_hash "s1" "s2" "s3" 1 2 3 4 empty_db
              demo_db 1 admin_row)
    as (_ & _ & Hu & _ & Hp & Ho & Hagain & _); [reflexivity | reflexivity |].
  split; [apply Hagain|]. split; [exact Hu|]. split; [exact Hp | exact Ho].
Defined.

Lemma edit_product_image_precedence_witness :
  let form :=
    ProductForm.mk (Some "Baby Spinach") (Some "tender") (field_number 80)
      (field_number 31%float) (Some EmptyString) (Some "on") in
  current_user demo_db (Some 2) = Some (2, farmer1_row)
  ∧ products demo_db !! 1 = Some tomatoes_row
  ∧ ∃ p,
      edit_product 1 POST form (Some 2) demo_db
      = (redirect (Some ("Product updated", "success")) ep_farmer_dashboard,
         mkDB (users demo_db) (<[1 := p]> (products demo_db))
           (orders demo_db))
      ∧ Product.name p = "Baby Spinach"
      ∧ Product.quantity p = 80
      ∧ Product.price p = 31%float
      ∧ Product.image_url p = "/static/images/ai_spinach.jpg".
Proof.
  cbv zeta. split; [reflexivity|]. split; [reflexivity|].
  destruct (edit_product_image_precedence demo_db (Some 2) 2 farmer1_row 1
              tomatoes_row
              (ProductForm.mk (Some "Baby Spinach") (Some "tender")
                 (field_number 80) (field_number 31%float)
                 (Some EmptyString) (Some "on"))
              "Baby Spinach")
    as (p & Hedit & _ & _ & Hname & _ & Hqty & Hprice & _ & Himage & _);
    [reflexivity | reflexivity | reflexivity | reflexivity | reflexivity
    | discriminate | discriminate | reflexivity | reflexivity |].
  exists p. split; [exact Hedit|]. split; [exact Hname|].
  split; [exact Hqty|]. split; [exact Hprice|]. apply Himage; reflexivity.
Defined.

(** * Further properties of the handlers *)

(** ** Orders by others than customers, and on unknown products *)

(** A signed-in user asking for a product id that no row has gets status
    404, whatever the role, or, when the id is beyond the integers of
    SQLite, the status 500 of the lookup that raises; a signed-in user who
    is not a customer, asking for a product that is there, is told that only
    customers can place orders; none of these requests writes. *)
Theorem order_product_refused
    db session uid u product_id method form utcnow :
  current_user db session = Some (uid, u) →
  let result := order_product product_id method form utcnow session db in
  (products db !! product_id = None → sqlite_integer product_id = true →
   result = (abort 404, db))
  ∧ (products db !! product_id = None → sqlite_integer product_id = false →
     result = (server_error "OverflowError", db))
  ∧ (is_Some (products db !! product_id) → User.role u ≠ "customer" →
     result
     = (redirect (Some ("Only customers can place orders", "warning"))
          ep_products, db)).
Proof.
  intros Hcu. cbv zeta. unfold order_product, login_required, no_row.
  rewrite Hcu. split_and!.
  - by intros -> ->.
  - by intros -> ->.
  - intros [p Hp] Hrole. rewrite Hp. unfold is_customer.
    apply String.eqb_neq in Hrole. by rewrite Hrole.
Qed.

Lemma order_product_refused_witness :
  current_user demo_db (Some 2) = Some (2, farmer1_row)
  ∧ order_product 9 POST (OrderForm.mk (Some 1)) 10 (Some 2) demo_db
    = (abort 404, demo_db)
  ∧ order_product (2 ^ 63) POST (OrderForm.mk (Some 1)) 10 (Some 2) demo_db
    = (server_error "OverflowError", demo_db)
  ∧ order_product 1 POST (OrderForm.mk (Some 1)) 10 (Some 2) demo_db
    = (redirect (Some ("Only customers can place orders", "warning"))
         ep_products, demo_db).
Proof.
  split; [reflexivity|]. split_and!.
  - destruct (order_product_refused demo_db (Some 2) 2 farmer1_row 9 POST
                (OrderForm.mk (Some 1)) 10 eq_refl) as (H & _ & _).
    apply H; reflexivity.
  - destruct (order_product_refused demo_db (Some 2) 2 farmer1_row (2 ^ 63)
                POST (OrderForm.mk (Some 1)) 10 eq_refl) as (_ & H & _).
    apply H; reflexivity.
  - destruct (order_product_refused demo_db (Some 2) 2 farmer1_row 1 POST
                (OrderForm.mk (Some 1)) 10 eq_refl) as (_ & _ & H).
    apply H; [by eexists | discriminate].
Defined.

(** ** Adding and deleting products *)

(** A farmer's add-product post without a name field raises; with a name
    field it raises when the quantity or the price is text that is no
    number, before the name is looked at; with numbers, a name that is empty
    once stripped is answered that a product name is required.  None of
    these posts writes. *)
Theorem add_product_needs_name db session uid u form utcnow :
  current_user db session = Some (uid, u) →
  User.role u = "farmer" →
  let result := add_product POST form utcnow session db in
  (ProductForm.name form = None →
   result = (server_error "AttributeError", db))
  ∧ (is_Some (ProductForm.name form) →
     ProductForm.quantity_field form = field_garbage
     ∨ ProductForm.price_field form = field_garbage →
     result = (server_error "ValueError", db))
  ∧ (∀ raw_name,
       ProductForm.name form = Some raw_name →
       ProductForm.quantity_field form ≠ field_garbage →
       ProductForm.price_field form ≠ field_garbage →
       Py.strip raw_name = EmptyString →
       result
       = (redirect (Some ("Product name required", "danger"))
            ep_add_product, db)).
Proof.
  intros Hcu Hrole. cbv zeta. unfold add_product.
  rewrite (role_required_pass _ _ _ _ _ _ Hcu Hrole). split_and!.
  - by intros ->.
  - intros [raw ->] [Hg | Hg]; rewrite Hg; simpl; [done|].
    by destruct (number_or 0 _).
  - intros raw Hname Hq Hp Hblank.
    rewrite Hname, (number_or_readable _ _ Hq), (number_or_readable _ _ Hp).
    by rewrite Hblank.
Qed.

Lemma add_product_needs_name_witness :
  let blank :=
    ProductForm.mk (Some "   ") (Some "x") (field_number 3) field_empty None
      None in
  let garbled :=
    ProductForm.mk (Some "   ") (Some "x") field_garbage field_empty None
      None in
  current_user demo_db (Some 2) = Some (2, farmer1_row)
  ∧ add_product POST blank 7 (Some 2) demo_db
    = (redirect (Some ("Product name required", "danger")) ep_add_product,
       demo_db)
  ∧ add_product POST garbled 7 (Some 2) demo_db
    = (server_error "ValueError", demo_db).
Proof.
  cbv zeta. split; [reflexivity|]. split.
  - destruct (add_product_needs_name demo_db (Some 2) 2 farmer1_row
                (ProductForm.mk (Some "   ") (Some "x") (field_number 3)
                   field_empty None None)
                7 eq_refl eq_refl) as (_ & _ & Hblank).
    apply (Hblank "   "); [reflexivity | discriminate | discriminate
                          | reflexivity].
  - destruct (add_product_needs_name demo_db (Some 2) 2 farmer1_row
                (ProductForm.mk (Some "   ") (Some "x") field_garbage
                   field_empty None None)
                7 eq_refl eq_refl) as (_ & Hgarbled & _).
    apply Hgarbled; [by eexists | left; reflexivity].
Defined.

(** Whatever the request to the add-product route, users and orders are as
    before, every product that was there is unchanged, and a product that
    was not there is the only new one: it sits under the next free key,
    belongs to the signed-in farmer, has a name that is not empty and the
    clock reading as creation time; its quantity is the submitted one, an
    integer of SQLite, and its price the submitted one, not a NaN, with a
    negative zero kept as zero. *)
Theorem add_product_adds_own_product method form utcnow session db :
  let db' := (add_product method form utcnow session db).2 in
  users db' = users db
  ∧ orders db' = orders db
  ∧ (∀ k p, products db !! k = Some p → products db' !! k = Some p)
  ∧ (∀ k p, products db' !! k = Some p → products db !! k = None →
       k = next_id (products db)
       ∧ (∃ u, current_user db session = Some (Product.farmer_id p, u)
               ∧ User.role u = "farmer")
       ∧ Product.name p ≠ EmptyString
       ∧ ProductForm.quantity_field form ≠ field_garbage
       ∧ ProductForm.price_field form ≠ field_garbage
       ∧ Product.quantity p = default 0 (ProductForm.quantity form)
       ∧ sqlite_integer (Product.quantity p) = true
       ∧ PrimFloat.is_nan (default 0%float (ProductForm.price form)) = false
       ∧ Product.price p
         = sqlite_real (default 0%float (ProductForm.price form))
       ∧ Product.created_at p = utcnow).
Proof.
  cbv zeta. unfold add_product.
  match goal with
  | |- context [role_required ?r ?f ?s ?d] =>
      destruct (role_required_unchanged_or r f s d)
        as [Hsame | (uid & u & Hcu & Hrole & ->)]
  end.
  - rewrite Hsame. split_and!; [done.. | intros k p H1 H2; congruence].
  - repeat case_match;
      try (split_and!; [done.. | intros k ? ? ?; simpl in *; congruence]).
    all: repeat match goal with
                | H : number_or _ _ = Some _ |- _ =>
                    apply number_or_Some in H as [? ->]
                end.
    all: repeat match goal with
                | H : negb _ = false |- _ => apply negb_false_iff in H
                end.
    all: simpl; split; [done|]; split; [done|]; split;
      [intros k p Hk; by apply insert_row_lookup|].
    all: intros k p Hk Hnone;
      apply lookup_insert_Some in Hk as [[<- <-]|[_ Hk]]; [|congruence].
    all: simpl; split_and!; try done; [by eauto|].
    all: by apply truthy_true_iff.
Qed.

(** The farmer who owns a product that no order refers to deletes it: the
    row is gone, every other product, every user and every order is as
    before. *)
Theorem delete_product_by_owner db session uid u product_id product :
  current_user db session = Some (uid, u) →
  User.role u = "farmer" →
  products db !! product_id = Some product →
  Product.farmer_id product = uid →
  map_Forall (λ _ o, Order.product_id o ≠ product_id) (orders db) →
  let result := delete_product product_id session db in
  result.1 = redirect (Some ("Product deleted", "info")) ep_farmer_dashboard
  ∧ users result.2 = users db
  ∧ orders result.2 = orders db
  ∧ products result.2 !! product_id = None
  ∧ (∀ k, k ≠ product_id → products result.2 !! k = products db !! k).
Proof.
  intros Hcu Hrole Hp Hown Hfree. cbv zeta. unfold delete_product.
  rewrite (role_required_pass _ _ _ _ _ _ Hcu Hrole).
  rewrite Hp, Hown, Z.eqb_refl. simpl.
  assert (has_orders db product_id = false) as ->.
  { unfold has_orders. apply bool_decide_eq_false.
    by apply map_not_Exists. }
  simpl. split_and!; try done.
  - apply lookup_delete_eq.
  - intros k Hk. by apply lookup_delete_ne.
Qed.

Lemma delete_product_by_owner_witness :
  current_user demo_db (Some 2) = Some (2, farmer1_row)
  ∧ is_Some (products demo_db !! 3)
  ∧ (delete_product 3 (Some 2) demo_db).1
    = redirect (Some ("Product deleted", "info")) ep_farmer_dashboard
  ∧ products (delete_product 3 (Some 2) demo_db).2 !! 3 = None.
Proof.
  split; [reflexivity|]. split; [by eexists|].
  destruct (delete_product_by_owner demo_db (Some 2) 2 farmer1_row 3
              (Product.mk 2 "Cabbage" "Crisp green cabbage" 40 25%float 3
                 "/static/images/ai_cabbage.jpg"))
    as (Hresp & _ & _ & Hgone & _);
    [reflexivity | reflexivity | reflexivity | reflexivity | |].
  - apply (bool_decide_unpack _). vm_compute. exact I.
  - split; [exact Hresp | exact Hgone].
Defined.

(** ** What an order does to the rest of the application *)

(** What [order_product] can do to the database: nothing, or the one commit
    of an order of a customer for [qty] units, [0 < qty] and [qty] within the
    stock. *)
Lemma order_product_outcome product_id method form utcnow session db :
  let db' := (order_product product_id method form utcnow session db).2 in
  db' = db
  ∨ ∃ uid u product qty,
      current_user db session = Some (uid, u)
      ∧ products db !! product_id = Some product
      ∧ 0 < qty ≤ Product.quantity product
      ∧ db'
        = mkDB (users db)
            (<[product_id :=
                 Product.set_quantity (Product.quantity product - qty)
                   product]> (products db))
            (<[next_id (orders db) :=
                 Order.mk uid product_id qty
                   (Py.int_mul_float qty (Product.price product)) utcnow
                   true]> (orders db)).
Proof.
  cbv zeta. unfold order_product, login_required.
  destruct (current_user db session) as [[uid u]|]; [|by left].
  destruct (products db !! product_id) as [product|] eqn:Hp; [|by left].
  destruct (negb (is_customer u)); [by left|].
  destruct method; [by left|].
  destruct (_ <=? 0) eqn:Hq; [by left|].
  destruct (_ >? _) eqn:Hs; [by left|].
  right. exists uid, u, product, (default 0 (OrderForm.quantity form)).
  split_and!; try done; lia.
Qed.

Lemma is_new_order_of_restocked db product_id product qty os farmer o :
  products db !! product_id = Some product →
  is_new_order_of
    (mkDB (users db)
       (<[product_id := Product.set_quantity qty product]> (products db)) os)
    farmer o
  = is_new_order_of db farmer o.
Proof.
  intros Hp. unfold is_new_order_of. simpl.
  destruct (decide (Order.product_id o = product_id)) as [->|Hne].
  - by rewrite lookup_insert_eq, Hp.
  - by rewrite lookup_insert_ne.
Qed.

(** Once a customer's order on a farmer's product has gone through, the
    count of new orders answered to that farmer is one more than before, and
    the count answered to any other farmer is as before. *)
Theorem order_raises_new_count
    db session uid u product_id product q utcnow fsession fu :
  current_user db session = Some (uid, u) →
  User.role u = "customer" →
  products db !! product_id = Some product →
  0 < q ≤ Product.quantity product →
  current_user db fsession = Some (Product.farmer_id product, fu) →
  User.role fu = "farmer" →
  let db' :=
    (order_product product_id POST (OrderForm.mk (Some q)) utcnow session
       db).2 in
  (∃ n, new_orders_count fsession db = (jsonify n, db)
        ∧ new_orders_count fsession db' = (jsonify (S n), db'))
  ∧ (∀ gsession g gu,
       current_user db gsession = Some (g, gu) →
       g ≠ Product.farmer_id product →
       (new_orders_count gsession db').1 = (new_orders_count gsession db).1).
Proof.
  intros Hcu Hrole Hp Hq Hfcu Hfrole. cbv zeta.
  rewrite (order_product_customer _ _ _ _ _ _ _ _ Hcu Hrole Hp). simpl.
  destruct (q <=? 0) eqn:E1; [lia|].
  destruct (q >? Product.quantity product) eqn:E2; [lia|]. simpl.
  set (order := Order.mk uid product_id q _ utcnow true).
  set (db' := mkDB _ _ _).
  assert (∀ farmer,
    filter (λ kv, is_new_order_of db' farmer kv.2 = true) (orders db)
    = filter (λ kv, is_new_order_of db farmer kv.2 = true) (orders db))
    as Hold.
  { intros farmer. apply map_filter_ext. intros i o _. simpl.
    unfold db'. by rewrite (is_new_order_of_restocked db _ _ _ _ _ _ Hp). }
  split.
  - eexists. unfold new_orders_count.
    rewrite (role_required_pass _ _ _ _ _ _ Hfcu Hfrole).
    assert (current_user db' fsession
            = Some (Product.farmer_id product, fu)) as Hfcu' by done.
    rewrite (role_required_pass _ _ _ _ _ _ Hfcu' Hfrole).
    split; [reflexivity|]. do 2 f_equal. unfold db' at 2. simpl.
    rewrite map_filter_insert_True.
    + rewrite map_size_insert_None; [by rewrite Hold|].
      apply map_lookup_filter_None. left. apply next_id_fresh.
    + simpl. unfold is_new_order_of, db'. simpl.
      rewrite lookup_insert_eq. simpl. by rewrite Z.eqb_refl.
  - intros gsession g gu Hgcu Hne. unfold new_orders_count, role_required.
    assert (current_user db' gsession = Some (g, gu)) as -> by done.
    rewrite Hgcu. destruct (negb _); [done|]. simpl. do 2 f_equal.
    unfold db' at 2. simpl. rewrite map_filter_insert_not'.
    + apply Hold.
    + simpl. unfold is_new_order_of, db'. simpl.
      rewrite lookup_insert_eq. simpl.
      destruct (Z.eqb_spec (Product.farmer_id product) g); [done|].
      by intros ?.
    + intros y Hy. by rewrite next_id_fresh in Hy.
Qed.

Lemma order_raises_new_count_witness :
  current_user demo_db (Some 3) = Some (3, cust1_row)
  ∧ current_user demo_db (Some 2) = Some (2, farmer1_row)
  ∧ products demo_db !! 1 = Some tomatoes_row
  ∧ ordered_db
    = (order_product 1 POST (OrderForm.mk (Some 5)) 10 (Some 3) demo_db).2
  ∧ ∃ n, new_orders_count (Some 2) demo_db = (jsonify n, demo_db)
         ∧ new_orders_count (Some 2) ordered_db = (jsonify (S n), ordered_db).
Proof.
  split; [reflexivity|]. split; [reflexivity|]. split; [reflexivity|].
  split; [reflexivity|].
  apply (order_raises_new_count demo_db (Some 3) 3 cust1_row 1 tomatoes_row
           5 10 (Some 2) farmer1_row);
    [reflexivity | reflexivity | reflexivity | simpl; lia | reflexivity
    | reflexivity].
Defined.

(** ** Stock and orders add up *)

Lemma ordered_quantity_orders db db' k :
  orders db' = orders db → ordered_quantity db' k = ordered_quantity db k.
Proof. intros H. unfold ordered_quantity. by rewrite H. Qed.

Lemma ordered_quantity_insert us ps (os : gmap Z Order.t) i o k :
  os !! i = None →
  ordered_quantity (mkDB us ps (<[i := o]> os)) k
  = (if Order.product_id o =? k then Order.quantity o else 0)
    + ordered_quantity (mkDB us ps os) k.
Proof.
  intros Hi. unfold ordered_quantity. simpl.
  rewrite map_fold_insert_L; [done | intros; lia | done].
Qed.

Lemma ordered_quantity_fmap us ps (os : gmap Z Order.t) g k :
  (∀ o, Order.product_id (g o) = Order.product_id o
        ∧ Order.quantity (g o) = Order.quantity o) →
  ordered_quantity (mkDB us ps (g <$> os)) k
  = ordered_quantity (mkDB us ps os) k.
Proof.
  intros Hg. induction os as [|i o os Hi IH] using map_ind.
  - by rewrite fmap_empty.
  - rewrite fmap_insert, !ordered_quantity_insert, IH;
      [|done|by rewrite lookup_fmap, Hi].
    destruct (Hg o) as [-> ->]. done.
Qed.

(** One request to [order_product] keeps, for every product, the stock and
    the units ordered adding up to what they added up to. *)
Lemma order_product_conserves product_id method form utcnow session db k p :
  products db !! k = Some p →
  let db' := (order_product product_id method form utcnow session db).2 in
  ∃ p', products db' !! k = Some p'
        ∧ Product.quantity p' + ordered_quantity db' k
          = Product.quantity p + ordered_quantity db k.
Proof.
  intros Hk. cbv zeta.
  destruct (order_product_outcome product_id method form utcnow session db)
    as [-> | (uid & u & product & qty & _ & Hp & Hq & ->)]; [by exists p|].
  rewrite ordered_quantity_insert by apply next_id_fresh. simpl.
  rewrite (ordered_quantity_orders db (mkDB _ _ (orders db))) by done.
  destruct (decide (k = product_id)) as [->|Hne].
  - rewrite lookup_insert_eq, Z.eqb_refl. eexists. split; [done|].
    simplify_eq. simpl. lia.
  - rewrite lookup_insert_ne by done. exists p. split; [done|].
    destruct (Z.eqb_spec product_id k); [congruence | lia].
Qed.

Section Further.

Variable generate_password_hash : string → string → string.

(** ** The access gate *)

(** Without a signed-in user, every route behind [role_required] or
    [login_required], twelve in all, answers with the login challenge and
    writes nothing: the six that [handle] dispatches to, the count of new
    orders, the log-out, which leaves the session as it is, the order list
    and the three pages of the administrator.  A session that names a user
    id with no row counts as not signed in. *)
Theorem anonymous_is_challenged session db :
  current_user db session = None →
  (∀ r, gated r →
     handle generate_password_hash r session db = (unauthorized, db))
  ∧ new_orders_count session db = (unauthorized, db)
  ∧ logout session db = (unauthorized, session)
  ∧ my_orders session db = (unauthorized, db)
  ∧ admin_dashboard session db = (unauthorized, db)
  ∧ admin_users session db = (unauthorized, db)
  ∧ admin_products session db = (unauthorized, db).
Proof.
  intros Hcu. split_and!.
  - intros r Hr. destruct r; try done; simpl;
      unfold farmer_dashboard, add_product, edit_product, delete_product,
        order_product, admin_edit_user, role_required, login_required;
      by rewrite Hcu.
  - unfold new_orders_count, role_required. by rewrite Hcu.
  - unfold logout. by rewrite Hcu.
  - unfold my_orders, login_required. by rewrite Hcu.
  - unfold admin_dashboard, role_required. by rewrite Hcu.
  - unfold admin_users, role_required. by rewrite Hcu.
  - unfold admin_products, role_required. by rewrite Hcu.
Qed.

(** A signed-in user whose role is not the one a route is decorated with
    gets status 403 from it, whatever the request, and nothing is written:
    so for the four farmer routes and the administrator route that [handle]
    dispatches to, for the count of new orders, and for the three pages of
    the administrator, nine routes in all. *)
Theorem wrong_role_is_forbidden session db uid u :
  current_user db session = Some (uid, u) →
  (∀ r role, required_role r = Some role → User.role u ≠ role →
     handle generate_password_hash r session db = (abort 403, db))
  ∧ (User.role u ≠ "farmer" →
     new_orders_count session db = (abort 403, db))
  ∧ (User.role u ≠ "admin" →
     admin_dashboard session db = (abort 403, db)
     ∧ admin_users session db = (abort 403, db)
     ∧ admin_products session db = (abort 403, db)).
Proof.
  intros Hcu. split_and!.
  - intros r role Hr Hrole. apply String.eqb_neq in Hrole.
    destruct r; simpl in Hr; simplify_eq; simpl;
      unfold farmer_dashboard, add_product, edit_product, delete_product,
        admin_edit_user, role_required;
      by rewrite Hcu, Hrole.
  - intros Hrole. apply String.eqb_neq in Hrole.
    unfold new_orders_count, role_required. by rewrite Hcu, Hrole.
  - intros Hrole. apply String.eqb_neq in Hrole.
    unfold admin_dashboard, admin_users, admin_products, role_required.
    by rewrite Hcu, Hrole.
Qed.

(** ** Registration *)

(** Whatever the request to the register route, products and orders are as
    before, every user row that was there is unchanged, and a user row that
    was not there is the only new one: it sits under the next free key, its
    role is farmer or customer, its username, name and contact number are
    not empty, no other row had its username, and its password hash is that
    of the submitted, non-empty password. *)
Theorem register_adds_self_service_user method form salt session db :
  let db' := (register generate_password_hash method form salt session db).2 in
  products db' = products db
  ∧ orders db' = orders db
  ∧ (∀ i u, users db !! i = Some u → users db' !! i = Some u)
  ∧ (∀ i u, users db' !! i = Some u → users db !! i = None →
       i = next_id (users db)
       ∧ (User.role u = "farmer" ∨ User.role u = "customer")
       ∧ User.username u ≠ EmptyString
       ∧ User.name u ≠ EmptyString
       ∧ User.contact_number u ≠ EmptyString
       ∧ (∀ j v, users db !! j = Some v →
                 User.username v ≠ User.username u)
       ∧ ∃ password,
           RegisterForm.password form = Some password
           ∧ password ≠ EmptyString
           ∧ User.password_hash u = generate_password_hash salt password).
Proof.
  cbv zeta. unfold register.
  repeat case_match;
    try (split_and!; [done.. | intros i u ? ?; simpl in *; congruence]).
  match goal with H : _ || _ = false |- _ => rename H into Hv end.
  repeat (apply orb_false_iff in Hv as [Hv ?]).
  repeat match goal with
         | H : negb _ = false |- _ => apply negb_false_iff in H
         end.
  simpl. split; [done|]. split; [done|]. split.
  - intros i u Hi. by apply insert_row_lookup.
  - intros i u Hi Hnone.
    apply lookup_insert_Some in Hi as [[<- <-]|[_ Hi]]; [|congruence].
    simpl. split; [done|]. split.
    { destruct (RegisterForm.role form) as [r|]; [|done]. simpl in *.
      match goal with
      | H : String.eqb r "farmer" || String.eqb r "customer" = true |- _ =>
          apply orb_true_iff in H as [H%String.eqb_eq | H%String.eqb_eq]
      end; auto. }
    split; [by apply truthy_true_iff|]. split; [by apply truthy_true_iff|].
    split; [by apply truthy_true_iff|]. split.
    { intros j v Hj. by eapply username_taken_false. }
    destruct (RegisterForm.password form) as [pw|]; [|done].
    exists pw. split; [done|]. split; [by apply truthy_true_iff | done].
Qed.

(** An anonymous post with a username that is free and not empty once
    stripped, a password that is not empty, the role farmer or customer, and
    a name and a contact number that are not empty once stripped, creates
    the user: one row under the next free key, holding the stripped
    username, name and contact number, the role, and the hash of the
    password. *)
Theorem register_creates_user db session form salt raw_username password role :
  current_user db session = None →
  RegisterForm.username form = Some raw_username →
  Py.strip raw_username ≠ EmptyString →
  RegisterForm.password form = Some password →
  password ≠ EmptyString →
  RegisterForm.role form = Some role →
  role = "farmer" ∨ role = "customer" →
  Py.strip (form_get (RegisterForm.name form)) ≠ EmptyString →
  Py.strip (form_get (RegisterForm.contact_number form)) ≠ EmptyString →
  username_taken db (Py.strip raw_username) = false →
  register generate_password_hash POST form salt session db
  = (redirect (Some ("Registration successful. Please log in.", "success"))
       ep_login,
     mkDB
       (<[next_id (users db) :=
            User.mk (Py.strip raw_username)
              (generate_password_hash salt password) role
              (Py.strip (form_get (RegisterForm.name form)))
              (Py.strip (form_get (RegisterForm.contact_number form)))]>
          (users db))
       (products db) (orders db)).
Proof.
  intros Hcu Hu Hune%truthy_true_iff Hp Hpne%truthy_true_iff Hr Hrole
    Hn%truthy_true_iff Hc%truthy_true_iff Hfree.
  unfold register. rewrite Hcu, Hu, Hp, Hr, Hune, Hn, Hc, Hfree. simpl.
  rewrite Hpne.
  assert (String.eqb role "farmer" || String.eqb role "customer" = true)
    as ->.
  { apply orb_true_iff. destruct Hrole as [->| ->]; auto. }
  done.
Qed.

(** ** Editing users *)

(** An administrator's post on a user other than the protected one fails
    with an integrity error, and writes nothing, when the form has no role
    field and when the stripped new username is that of another row. *)
Theorem admin_edit_user_integrity
    db session aid a user_id user form raw_name raw_username raw_contact
    salt :
  current_user db session = Some (aid, a) →
  User.role a = "admin" →
  users db !! user_id = Some user →
  User.username user ≠ "admin" →
  UserForm.name form = Some raw_name →
  UserForm.username form = Some raw_username →
  UserForm.contact_number form = Some raw_contact →
  let result :=
    admin_edit_user generate_password_hash user_id POST form salt session
      db in
  (UserForm.role form = None → result = (server_error "IntegrityError", db))
  ∧ (∀ j v, j ≠ user_id → users db !! j = Some v →
            User.username v = Py.strip raw_username →
            result = (server_error "IntegrityError", db)).
Proof.
  intros Hcu Hadmin Hu Hne%String.eqb_neq Hn Hun Hc. cbv zeta.
  unfold admin_edit_user.
  rewrite (role_required_pass _ _ _ _ _ _ Hcu Hadmin).
  rewrite Hu, Hne, Hn, Hun, Hc. split.
  - by intros ->.
  - intros j v Hj Hv Hsame. destruct (UserForm.role form); [|done].
    assert (username_clash db user_id (Py.strip raw_username) = true) as ->;
      [|done].
    apply bool_decide_eq_true. exists j, v. eauto.
Qed.

(** ** What no run of the application undoes *)

Lemma flag_cleared_at_most_refl o : flag_cleared_at_most o o.
Proof. by unfold flag_cleared_at_most. Qed.

Lemma flag_cleared_at_most_trans o1 o2 o3 :
  flag_cleared_at_most o1 o2 → flag_cleared_at_most o2 o3 →
  flag_cleared_at_most o1 o3.
Proof.
  unfold flag_cleared_at_most.
  intros (?&?&?&?&?&?) (?&?&?&?&?&?). split_and!; try congruence. auto.
Qed.

Lemma create_demo_data_cases salts utcnow db :
  create_demo_data generate_password_hash salts utcnow db = db
  ∨ (users db = ∅
     ∧ ∃ s1 s2 s3 t1 t2 t3 t4, salts = (s1, s2, s3)
                                ∧ utcnow = (t1, t2, t3, t4)).
Proof.
  destruct salts as [[s1 s2] s3], utcnow as [[[t1 t2] t3] t4].
  destruct (map_to_list (users db)) as [|[i u] l] eqn:E.
  - right. apply map_to_list_empty_iff in E. split; [done|].
    by exists s1, s2, s3, t1, t2, t3, t4.
  - left. eapply (create_demo_data_seeded _ _ _ _ i u).
    apply elem_of_map_to_list. rewrite E. left.
Qed.

Lemma apply_event_orders e db i o :
  orders db !! i = Some o →
  ∃ o', orders (apply_event generate_password_hash db e) !! i = Some o'
        ∧ flag_cleared_at_most o o'.
Proof.
  intros Hi. destruct e as [salts utcnow | session r]; simpl.
  - destruct (create_demo_data_cases salts utcnow db)
      as [-> | (He & s1 & s2 & s3 & t1 & t2 & t3 & t4 & -> & ->)].
    + exists o. split; [done | apply flag_cleared_at_most_refl].
    + rewrite (create_demo_data_fresh _ _ _ _ _ _ _ _ _ He). simpl.
      exists o. split; [|apply flag_cleared_at_most_refl].
      by apply (insert_row_lookup _ (orders db)).
  - destruct r; simpl.
    + unfold register. repeat case_match;
        (exists o; split; [done | apply flag_cleared_at_most_refl]).
    + unfold farmer_dashboard, role_required. repeat case_match;
        try (exists o; split; [done | apply flag_cleared_at_most_refl]).
      simpl. rewrite lookup_fmap, Hi. simpl. eexists. split; [done|].
      case_match; [|apply flag_cleared_at_most_refl].
      unfold flag_cleared_at_most. simpl. split_and!; done.
    + unfold add_product, role_required. repeat case_match;
        (exists o; split; [done | apply flag_cleared_at_most_refl]).
    + unfold edit_product, role_required. repeat case_match;
        (exists o; split; [done | apply flag_cleared_at_most_refl]).
    + unfold delete_product, role_required. repeat case_match;
        (exists o; split; [done | apply flag_cleared_at_most_refl]).
    + destruct (order_product_outcome product_id method form utcnow session
                  db) as [-> | (?&?&?&?&_&_&_& ->)];
        (exists o; split; [|apply flag_cleared_at_most_refl]); [done|].
      by apply (insert_row_lookup _ (orders db)).
    + unfold admin_edit_user, role_required. repeat case_match;
        (exists o; split; [done | apply flag_cleared_at_most_refl]).
Qed.

(** Through any run of the application an order row stays under its key
    with the same customer, product, quantity, total price and date; its
    new flag can at most go from set to cleared. *)
Theorem orders_are_kept es db i o :
  orders db !! i = Some o →
  ∃ o', orders (run generate_password_hash es db) !! i = Some o'
        ∧ flag_cleared_at_most o o'.
Proof.
  revert db o. induction es as [|e es IH]; intros db o Hi.
  - exists o. split; [done | apply flag_cleared_at_most_refl].
  - simpl. destruct (apply_event_orders e db i o Hi) as (o1 & H1 & Hf1).
    destruct (IH _ _ H1) as (o' & H' & Hf'). exists o'. split; [done|].
    by eapply flag_cleared_at_most_trans.
Qed.

Lemma apply_event_users e db i u :
  users db !! i = Some u →
  is_Some (users (apply_event generate_password_hash db e) !! i)
  ∧ (User.username u = "admin" →
     users (apply_event generate_password_hash db e) !! i = Some u).
Proof.
  intros Hi. destruct e as [salts utcnow | session r]; simpl.
  - destruct (create_demo_data_cases salts utcnow db) as [-> | [He _]];
      [by eauto|]. by rewrite He, lookup_empty in Hi.
  - destruct r;
      try (rewrite handle_users_other by done; by eauto); simpl.
    + unfold register. repeat case_match; simpl; try by eauto.
      split; [eexists|intros _]; by apply (insert_row_lookup _ (users db)).
    + unfold admin_edit_user, role_required.
      repeat case_match; simpl; try by eauto.
      all: destruct (decide (i = user_id)) as [->|Hne];
        [|rewrite lookup_insert_ne by done; by eauto].
      all: rewrite lookup_insert_eq; split; [by eauto|].
      all: intros Hadmin; simplify_eq.
      all: match goal with
           | H : String.eqb _ "admin" = false |- _ =>
               apply String.eqb_neq in H
           end; done.
Qed.

(** Through any run of the application no user row is removed, and the row
    whose username is "admin" is never changed. *)
Theorem users_are_kept es db i u :
  users db !! i = Some u →
  is_Some (users (run generate_password_hash es db) !! i)
  ∧ (User.username u = "admin" →
     users (run generate_password_hash es db) !! i = Some u).
Proof.
  revert db u. induction es as [|e es IH]; intros db u Hi; [by eauto|].
  simpl. destruct (apply_event_users e db i u Hi) as [[u1 H1] Hadmin]. split.
  - by apply (IH _ u1).
  - intros Ha. specialize (Hadmin Ha). by apply (IH _ u Hadmin).
Qed.

(** ** Orders and the rows they refer to *)

Lemma insert_keeps {A} (m : gmap Z A) i x k a :
  m !! k = Some a → is_Some (<[i := x]> m !! k).
Proof.
  intros Hk. destruct (decide (i = k)) as [->|Hne].
  - rewrite lookup_insert_eq. by eauto.
  - rewrite lookup_insert_ne by done. by eauto.
Qed.

Lemma current_user_lookup db session uid u :
  current_user db session = Some (uid, u) → users db !! uid = Some u.
Proof.
  unfold current_user, load_user. destruct session as [i|]; [|done].
  destruct (users db !! i) eqn:E; [|done]. by intros [= <- <-].
Qed.

Lemma refer_weaken db db' :
  orders_refer_to_rows db →
  orders db' = orders db →
  (∀ k p, products db !! k = Some p → is_Some (products db' !! k)) →
  (∀ i u, users db !! i = Some u → is_Some (users db' !! i)) →
  orders_refer_to_rows db'.
Proof.
  unfold orders_refer_to_rows. intros Hr -> Hp Hu.
  eapply map_Forall_impl; [exact Hr|]. simpl.
  intros i o [[p Hpo] [u Huo]]. split; eauto.
Qed.

Lemma create_demo_data_refers salts utcnow db :
  orders_refer_to_rows db →
  orders_refer_to_rows
    (create_demo_data generate_password_hash salts utcnow db).
Proof.
  intros Hr. destruct (create_demo_data_cases salts utcnow db)
    as [-> | (He & s1 & s2 & s3 & t1 & t2 & t3 & t4 & -> & ->)]; [done|].
  rewrite (create_demo_data_fresh _ _ _ _ _ _ _ _ _ He).
  unfold orders_refer_to_rows. simpl. apply map_Forall_insert_2; simpl.
  - split; [|by eauto].
    eapply insert_keeps, (insert_row_lookup _ (<[_ := _]> (products db))).
    apply lookup_insert_eq.
  - eapply map_Forall_impl; [exact Hr|]. simpl.
    intros i o [_ [u Hu]]. by rewrite He, lookup_empty in Hu.
Qed.

Lemma order_product_refers product_id method form utcnow session db :
  orders_refer_to_rows db →
  orders_refer_to_rows
    (order_product product_id method form utcnow session db).2.
Proof.
  intros Hr.
  destruct (order_product_outcome product_id method form utcnow session db)
    as [-> | (uid & u & product & qty & Hcu & Hp & _ & ->)]; [done|].
  unfold orders_refer_to_rows. simpl. apply map_Forall_insert_2; simpl.
  - rewrite lookup_insert_eq. apply current_user_lookup in Hcu.
    split; by eauto.
  - eapply map_Forall_impl; [exact Hr|]. simpl.
    intros i o [[p Hpo] Hu]. split; [|done]. by eapply insert_keeps.
Qed.

Lemma delete_product_refers product_id session db :
  orders_refer_to_rows db →
  orders_refer_to_rows (delete_product product_id session db).2.
Proof.
  intros Hr. unfold delete_product, role_required.
  repeat case_match; try done.
  match goal with
  | H : has_orders _ _ = false |- _ =>
      unfold has_orders in H; apply bool_decide_eq_false in H;
      apply map_not_Exists in H; rename H into Hfree
  end.
  unfold orders_refer_to_rows. simpl. intros i o Hi.
  destruct (Hr i o Hi) as [Hp Hu]. split; [|done].
  rewrite lookup_delete_ne; [done|]. intros Heq. by apply (Hfree i o Hi).
Qed.

Lemma apply_event_refers e db :
  orders_refer_to_rows db →
  orders_refer_to_rows (apply_event generate_password_hash db e).
Proof.
  intros Hr. destruct e as [salts utcnow | session r]; simpl.
  - by apply create_demo_data_refers.
  - destruct r; simpl.
    + unfold register. repeat case_match; try done.
      apply (refer_weaken db); [done | done | by eauto | simpl].
      intros i ? Hi. by eapply insert_keeps.
    + unfold farmer_dashboard, role_required. repeat case_match; try done.
      unfold orders_refer_to_rows. simpl. apply map_Forall_fmap.
      eapply map_Forall_impl; [exact Hr|]. simpl. intros i o Ho.
      match goal with
      | |- context [if ?b then _ else _] => by destruct b
      end.
    + unfold add_product, role_required. repeat case_match; try done.
      all: apply (refer_weaken db); [done | done | simpl | by eauto].
      all: intros k ? Hk; by eapply insert_keeps.
    + unfold edit_product, role_required. repeat case_match; try done.
      all: apply (refer_weaken db); [done | done | simpl | by eauto].
      all: intros k ? Hk; by eapply insert_keeps.
    + by apply delete_product_refers.
    + by apply order_product_refers.
    + unfold admin_edit_user, role_required. repeat case_match; try done.
      all: apply (refer_weaken db); [done | done | by eauto | simpl].
      all: intros i ? Hi; by eapply insert_keeps.
Qed.

(** Through any run of the application every order refers to a product row
    and to a user row that exist: an order is written for a product and a
    user that are there, no user is removed, and a product that an order
    refers to is not deleted, the commit of the deletion failing. *)
Theorem orders_keep_their_rows es db :
  orders_refer_to_rows db →
  orders_refer_to_rows (run generate_password_hash es db).
Proof.
  revert db. induction es as [|e es IH]; intros db Hr; [done|].
  simpl. by apply IH, apply_event_refers.
Qed.

(** ** Stock and orders add up, through runs *)

Lemma apply_event_conserves e db k p :
  keeps_the_books e →
  products db !! k = Some p →
  ∃ p', products (apply_event generate_password_hash db e) !! k = Some p'
        ∧ Product.quantity p'
          + ordered_quantity (apply_event generate_password_hash db e) k
          = Product.quantity p + ordered_quantity db k.
Proof.
  intros He Hk. destruct e as [salts utcnow | session r]; simpl.
  - destruct (create_demo_data_cases salts utcnow db)
      as [-> | (Hu & s1 & s2 & s3 & t1 & t2 & t3 & t4 & -> & ->)];
      [by exists p|].
    rewrite (create_demo_data_fresh _ _ _ _ _ _ _ _ _ Hu). simpl.
    exists p. split.
    + eapply (insert_row_lookup _ (<[_ := _]> (<[_ := _]> (products db)))).
      eapply (insert_row_lookup _ (<[_ := _]> (products db))).
      by eapply (insert_row_lookup _ (products db)).
    + rewrite ordered_quantity_insert by apply next_id_fresh. simpl.
      rewrite (ordered_quantity_orders db (mkDB _ _ (orders db))) by done.
      destruct (Z.eqb_spec (next_id (products db)) k) as [Heq|]; [|lia].
      rewrite <- Heq, next_id_fresh in Hk. done.
  - destruct r; simpl in *; try done.
    + unfold register. repeat case_match; exists p; by split.
    + unfold farmer_dashboard, role_required.
      repeat case_match; exists p; split; try done. simpl.
      rewrite ordered_quantity_fmap; [done|].
      intros o. by case_match.
    + unfold add_product, role_required.
      repeat case_match; exists p; split; try done; simpl.
      all: by apply (insert_row_lookup _ (products db)).
    + by apply order_product_conserves.
    + unfold admin_edit_user, role_required.
      repeat case_match; exists p; by split.
Qed.

(** Through any run without a farmer's edit or deletion of products, a
    product's stock and the units ordered of it add up to what they added
    up to at the start: every unit ordered is taken from the stock once, and
    nothing else moves the stock. *)
Theorem stock_and_orders_add_up es db k p :
  Forall keeps_the_books es →
  products db !! k = Some p →
  ∃ p', products (run generate_password_hash es db) !! k = Some p'
        ∧ Product.quantity p'
          + ordered_quantity (run generate_password_hash es db) k
          = Product.quantity p + ordered_quantity db k.
Proof.
  intros Hes. revert db p. induction Hes as [|e es He Hes IH];
    intros db p Hk; [by exists p|].
  simpl. destruct (apply_event_conserves e db k p He Hk) as (p1 & H1 & E1).
  destruct (IH _ _ H1) as (p' & H' & E'). exists p'. split; [done | lia].
Qed.

(** ** What a user who does not own a product can do to it *)

Lemma set_quantity_same p : Product.set_quantity (Product.quantity p) p = p.
Proof. by destruct p. Qed.

Lemma order_product_by_customer product_id method form utcnow session db :
  (order_product product_id method form utcnow session db).2 ≠ db →
  ∃ uid u, current_user db session = Some (uid, u)
           ∧ User.role u = "customer".
Proof.
  unfold order_product, login_required, is_customer.
  destruct (current_user db session) as [[uid u]|]; [|done].
  destruct (products db !! product_id); [|done].
  destruct (String.eqb_spec (User.role u) "customer"); [|done].
  intros _. by exists uid, u.
Qed.

(** Whatever a request of someone who is not signed in as the owner of a
    product, the product row stays, and stays as it is but for its quantity,
    which can only go down, and only by an order of a signed-in customer. *)
Theorem non_owner_can_only_order r session db k p :
  products db !! k = Some p →
  fst <$> current_user db session ≠ Some (Product.farmer_id p) →
  let db' := (handle generate_password_hash r session db).2 in
  ∃ q, products db' !! k = Some (Product.set_quantity q p)
       ∧ q ≤ Product.quantity p
       ∧ (q < Product.quantity p →
          ∃ uid u, current_user db session = Some (uid, u)
                   ∧ User.role u = "customer").
Proof.
  intros Hk Hown. cbv zeta.
  assert (∀ db', products db' !! k = Some p →
    ∃ q, products db' !! k = Some (Product.set_quantity q p)
         ∧ q ≤ Product.quantity p
         ∧ (q < Product.quantity p →
            ∃ uid u, current_user db session = Some (uid, u)
                     ∧ User.role u = "customer")) as Hsame.
  { intros db' Hk'. exists (Product.quantity p).
    rewrite set_quantity_same. split; [done|]. split; lia. }
  destruct r; simpl.
  - apply Hsame. unfold register. by repeat case_match.
  - apply Hsame. unfold farmer_dashboard, role_required.
    by repeat case_match.
  - apply Hsame. unfold add_product, role_required.
    repeat case_match; try done; simpl.
    all: by apply (insert_row_lookup _ (products db)).
  - apply Hsame. unfold edit_product, role_required.
    destruct (current_user db session) as [[uid u]|]; [|done].
    repeat case_match; try done; simpl.
    all: destruct (decide (product_id = k)) as [->|Hne];
      [|by rewrite lookup_insert_ne].
    all: simplify_eq; simpl in *.
    all: match goal with
         | H : negb (_ =? _) = false |- _ =>
             apply negb_false_iff, Z.eqb_eq in H; congruence
         end.
  - apply Hsame. unfold delete_product, role_required.
    destruct (current_user db session) as [[uid u]|]; [|done].
    repeat case_match; try done; simpl.
    destruct (decide (product_id = k)) as [->|Hne];
      [|by rewrite lookup_delete_ne].
    simplify_eq; simpl in *.
    match goal with
    | H : negb (_ =? _) = false |- _ =>
        apply negb_false_iff, Z.eqb_eq in H; congruence
    end.
  - destruct (order_product_outcome product_id method form utcnow session db)
      as [Heq | (uid & u & product & qty & Hcu & Hp & Hq & Heq)].
    + rewrite Heq. by apply Hsame.
    + assert ((order_product product_id method form utcnow session db).2
              ≠ db) as Hwrote.
      { rewrite Heq. intros Hdb. apply (f_equal orders) in Hdb.
        simpl in Hdb. by apply (insert_row_ne _ (orders db)) in Hdb. }
      apply order_product_by_customer in Hwrote. rewrite Heq. simpl.
      destruct (decide (product_id = k)) as [->|Hne].
      * rewrite lookup_insert_eq. simplify_eq.
        exists (Product.quantity p - qty). split; [done|]. split; [lia|done].
      * rewrite lookup_insert_ne by done. exists (Product.quantity p).
        rewrite set_quantity_same. split; [done|]. split; [lia | done].
  - apply Hsame. unfold admin_edit_user, role_required.
    by repeat case_match.
Qed.

End Further.

(** ** Signing in *)

Lemma find_user_inv db n i u :
  find_user db n = Some (i, u) →
  users db !! i = Some u ∧ User.username u = n.
Proof.
  unfold find_user. intros H.
  destruct (filter _ _) as [|x l] eqn:E; [done|]. simpl in H. simplify_eq.
  assert ((i, u) ∈ (i, u) :: l) as Hin by left. rewrite <- E in Hin.
  apply list_elem_of_filter in Hin as [Hn Hin].
  by apply elem_of_map_to_list in Hin.
Qed.

Lemma find_user_only db n i u :
  users db !! i = Some u → User.username u = n →
  (∀ j v, users db !! j = Some v → User.username v = n → j = i) →
  find_user db n = Some (i, u).
Proof.
  intros Hi Hn Honly. destruct (find_user db n) as [[j v]|] eqn:E.
  - apply find_user_inv in E as [Hj Hv]. assert (j = i) as -> by eauto.
    congruence.
  - unfold find_user in E. destruct (filter _ _) as [|x l] eqn:E'; [|done].
    assert ((i, u) ∈ filter (λ kv : Z * User.t, User.username kv.2 = n)
                       (map_to_list (users db))) as Hin.
    { apply list_elem_of_filter. split; [done|].
      by apply elem_of_map_to_list. }
    rewrite E' in Hin. by apply elem_of_nil in Hin.
Qed.

Section SigningIn.

Variable generate_password_hash : string → string → string.
Variable check_password_hash : string → option string → option bool.

(** Whatever the request to the login route, the session is left as it was
    unless the form names, by its stripped username, a user whose stored
    hash accepts the submitted password; the session then holds that user's
    id. *)
Theorem login_needs_accepted_password method form next_page session db :
  let result := login check_password_hash method form next_page session db in
  result.2 = session
  ∨ ∃ raw_username uid u,
      LoginForm.username form = Some raw_username
      ∧ users db !! uid = Some u
      ∧ User.username u = Py.strip raw_username
      ∧ check_password_hash (User.password_hash u) (LoginForm.password form)
        = Some true
      ∧ result.2 = Some uid.
Proof.
  cbv zeta. unfold login.
  destruct (current_user db session); [by left|].
  destruct method; [by left|].
  destruct (LoginForm.username form) as [raw|]; [|by left].
  destruct (find_user db (Py.strip raw)) as [[uid u]|] eqn:Hf; [|by left].
  apply find_user_inv in Hf as [Hu Hn].
  destruct (check_password_hash _ _) as [[|]|] eqn:Hc; try by left.
  right. exists raw, uid, u. by split_and!.
Qed.

(** What [check_password_hash] is for: it accepts the password a hash was
    generated from. *)
Hypothesis check_accepts :
  ∀ salt password,
    check_password_hash (generate_password_hash salt password) (Some password)
    = Some true.

Lemma register_success_row method form salt session db :
  (register generate_password_hash method form salt session db).1
  = redirect (Some ("Registration successful. Please log in.", "success"))
      ep_login →
  ∃ raw password u,
    RegisterForm.username form = Some raw
    ∧ RegisterForm.password form = Some password
    ∧ User.username u = Py.strip raw
    ∧ User.password_hash u = generate_password_hash salt password
    ∧ username_taken db (Py.strip raw) = false
    ∧ (register generate_password_hash method form salt session db).2
      = mkDB (<[next_id (users db) := u]> (users db)) (products db)
          (orders db).
Proof.
  unfold register. repeat case_match; try done. intros _.
  match goal with H : _ || _ = false |- _ => rename H into Hv end.
  repeat (apply orb_false_iff in Hv as [Hv ?]).
  destruct (RegisterForm.password form) as [pw|] eqn:Hpw; [|done].
  eexists _, pw, _. split_and!; try done. all: done.
Qed.

(** A user who has just registered signs in: an anonymous post of the same
    username, up to surrounding white space, and the same password is
    answered as logged in, and the session holds the new user's id. *)
Theorem register_then_login
    db session form salt raw_username password lform raw_username'
    next_page session' :
  let r1 := register generate_password_hash POST form salt session db in
  r1.1 = redirect (Some ("Registration successful. Please log in.",
                         "success")) ep_login →
  RegisterForm.username form = Some raw_username →
  RegisterForm.password form = Some password →
  LoginForm.username lform = Some raw_username' →
  Py.strip raw_username' = Py.strip raw_username →
  LoginForm.password lform = Some password →
  current_user r1.2 session' = None →
  login check_password_hash POST lform next_page session' r1.2
  = (login_redirect (Some ("Logged in successfully.", "success"))
       (if Py.truthy_opt next_page then to_url (form_get next_page)
        else to_endpoint ep_index),
     Some (next_id (users db))).
Proof.
  intros r1 Hok Hraw Hpw Hlraw Hsame Hlpw Hanon.
  destruct (register_success_row _ _ _ _ _ Hok)
    as (raw & pw & u & Hraw' & Hpw' & Hun & Hhash & Hfree & Hdb).
  fold r1 in Hdb. simplify_eq.
  assert (find_user r1.2 (Py.strip raw_username)
          = Some (next_id (users db), u)) as Hfind.
  { rewrite Hdb. apply find_user_only; simpl.
    - apply lookup_insert_eq.
    - done.
    - intros j v Hj Hv. destruct (decide (j = next_id (users db))); [done|].
      rewrite lookup_insert_ne in Hj by done. exfalso.
      by eapply username_taken_false. }
  unfold login. rewrite Hanon, Hlraw, Hsame, Hfind, Hhash, Hlpw.
  by rewrite check_accepts.
Qed.

End SigningIn.

(** ** The public catalogue *)

Lemma products_page_elem db rows k p :
  products_page db rows →
  (k, p) ∈ rows ↔ products db !! k = Some p ∧ 0 < Product.quantity p.
Proof.
  intros [Hperm _]. rewrite Hperm, elem_of_map_to_list.
  unfold available_products. by rewrite map_lookup_filter_Some.
Qed.

(** The query of [/products] has a result on every database. *)
Lemma products_page_exists db : ∃ rows, products_page db rows.
Proof.
  set (R := λ a b : Z * Product.t,
              Product.created_at b.2 ≤ Product.created_at a.2).
  assert (Transitive R) by (intros a b c; unfold R; lia).
  assert (Total R) by (intros a b; unfold R; lia).
  assert (∀ a b, Decision (R a b)) by (intros a b; unfold R; apply _).
  exists (merge_sort R (map_to_list (available_products db))). split.
  - apply merge_sort_Permutation.
  - by apply (StronglySorted_merge_sort R).
Qed.

(** After a customer's order has gone through, the catalogue page no longer
    shows the product when the order took the whole stock, shows it with the
    stock that is left when it did not, and shows every other product
    exactly when it has stock, as before the order. *)
Theorem sold_out_leaves_the_catalogue
    db session uid u product_id product q utcnow rows :
  current_user db session = Some (uid, u) →
  User.role u = "customer" →
  products db !! product_id = Some product →
  0 < q ≤ Product.quantity product →
  products_page
    (order_product product_id POST (OrderForm.mk (Some q)) utcnow session
       db).2 rows →
  (q = Product.quantity product → ∀ p, (product_id, p) ∉ rows)
  ∧ (q < Product.quantity product →
     (product_id, Product.set_quantity (Product.quantity product - q) product)
     ∈ rows)
  ∧ (∀ k p, k ≠ product_id →
       (k, p) ∈ rows
       ↔ products db !! k = Some p ∧ 0 < Product.quantity p).
Proof.
  intros Hcu Hrole Hp Hq Hpage.
  rewrite (order_product_customer _ _ _ _ _ _ _ _ Hcu Hrole Hp) in Hpage.
  simpl in Hpage. destruct (q <=? 0) eqn:E1; [lia|].
  destruct (q >? Product.quantity product) eqn:E2; [lia|].
  split; [|split].
  - intros -> p Hin. apply (products_page_elem _ _ _ _ Hpage) in Hin.
    simpl in Hin. rewrite lookup_insert_eq in Hin.
    destruct Hin as [[= <-] Hpos]. simpl in Hpos. lia.
  - intros Hlt. apply (products_page_elem _ _ _ _ Hpage). simpl.
    rewrite lookup_insert_eq. split; [done|]. simpl. lia.
  - intros k p Hne. rewrite (products_page_elem _ _ _ _ Hpage). simpl.
    by rewrite lookup_insert_ne.
Qed.

(** ** The further properties at work on the sample data *)

Lemma anonymous_is_challenged_witness :
  current_user demo_db None = None
  ∧ current_user demo_db (Some 7) = None
  ∧ handle sample_hash (DeleteProduct 1) None demo_db
    = (unauthorized, demo_db)
  ∧ handle sample_hash (OrderProduct 1 POST (OrderForm.mk (Some 1)) 9)
      (Some 7) demo_db
    = (unauthorized, demo_db)
  ∧ logout (Some 7) demo_db = (unauthorized, Some 7)
  ∧ admin_users None demo_db = (unauthorized, demo_db).
Proof.
  split; [reflexivity|]. split; [reflexivity|].
  destruct (anonymous_is_challenged sample_hash None demo_db eq_refl)
    as (Hnone & _ & _ & _ & _ & Husers & _).
  destruct (anonymous_is_challenged sample_hash (Some 7) demo_db eq_refl)
    as (Hgone & _ & Hlogout & _).
  split_and!.
  - apply Hnone. exact I.
  - apply Hgone. exact I.
  - exact Hlogout.
  - exact Husers.
Defined.

Lemma wrong_role_is_forbidden_witness :
  current_user demo_db (Some 3) = Some (3, cust1_row)
  ∧ User.role cust1_row ≠ "farmer"
  ∧ handle sample_hash (AddProduct POST beetroot_form 5) (Some 3) demo_db
    = (abort 403, demo_db)
  ∧ admin_products (Some 3) demo_db = (abort 403, demo_db).
Proof.
  split; [reflexivity|]. split; [discriminate|].
  destruct (wrong_role_is_forbidden sample_hash (Some 3) demo_db 3 cust1_row
              eq_refl) as (Hhandle & _ & Hadmin).
  split.
  - apply (Hhandle (AddProduct POST beetroot_form 5) "farmer");
      [reflexivity | discriminate].
  - destruct Hadmin as (_ & _ & Hproducts); [discriminate | exact Hproducts].
Defined.

Lemma register_adds_self_service_user_witness :
  users two_farmers_db !! 4 = Some farmer2_row
  ∧ users demo_db !! 4 = None
  ∧ User.role farmer2_row = "farmer"
  ∧ products two_farmers_db = products demo_db.
Proof.
  destruct (register_adds_self_service_user sample_hash POST farmer2_form
              "s4" None demo_db) as (Hp & _ & _ & Hnew).
  destruct (Hnew 4 farmer2_row eq_refl eq_refl)
    as (_ & [Hrole | Hrole] & _); [|discriminate Hrole].
  split; [reflexivity|]. split; [reflexivity|].
  split; [exact Hrole | exact Hp].
Defined.

Lemma register_creates_user_witness :
  current_user demo_db None = None
  ∧ username_taken demo_db (Py.strip "farmer2") = false
  ∧ register sample_hash POST farmer2_form "s4" None demo_db
    = (redirect (Some ("Registration successful. Please log in.", "success"))
         ep_login,
       mkDB (<[4 := farmer2_row]> (users demo_db)) (products demo_db)
         (orders demo_db)).
Proof.
  split; [reflexivity|]. split; [reflexivity|].
  apply (register_creates_user sample_hash demo_db None farmer2_form "s4"
           "farmer2" "pw" "farmer");
    [reflexivity | reflexivity | discriminate | reflexivity | discriminate
    | reflexivity | left; reflexivity | discriminate | discriminate
    | reflexivity].
Defined.

Lemma admin_edit_user_integrity_witness :
  let form :=
    UserForm.mk (Some "Bob") (Some " farmer1 ") (Some "111")
      (Some "customer") None in
  current_user demo_db (Some 1) = Some (1, admin_row)
  ∧ users demo_db !! 3 = Some cust1_row
  ∧ users demo_db !! 2 = Some farmer1_row
  ∧ admin_edit_user sample_hash 3 POST form "s9" (Some 1) demo_db
    = (server_error "IntegrityError", demo_db).
Proof.
  cbv zeta. split; [reflexivity|]. split; [reflexivity|].
  split; [reflexivity|].
  destruct (admin_edit_user_integrity sample_hash demo_db (Some 1) 1
              admin_row 3 cust1_row
              (UserForm.mk (Some "Bob") (Some " farmer1 ") (Some "111")
                 (Some "customer") None)
              "Bob" " farmer1 " "111" "s9") as [_ Hclash];
    [reflexivity | reflexivity | reflexivity | discriminate | reflexivity
    | reflexivity | reflexivity |].
  apply (Hclash 2 farmer1_row); [lia | reflexivity | reflexivity].
Defined.

Lemma add_product_adds_own_product_witness :
  let form :=
    ProductForm.mk (Some "Beetroot") None (field_number 7)
      (field_number (PrimFloat.opp 0%float)) None None in
  ∃ p, products (add_product POST form 5 (Some 2) demo_db).2 !! 4 = Some p
       ∧ products demo_db !! 4 = None
       ∧ Product.farmer_id p = 2
       ∧ Product.quantity p = 7
       ∧ Product.price p = 0%float.
Proof.
  cbv zeta.
  destruct (add_product_adds_own_product POST
              (ProductForm.mk (Some "Beetroot") None (field_number 7)
                 (field_number (PrimFloat.opp 0%float)) None None)
              5 (Some 2) demo_db) as (_ & _ & _ & Hnew).
  eexists. split; [reflexivity|]. split; [reflexivity|].
  destruct (Hnew 4 _ eq_refl eq_refl)
    as (_ & _ & _ & _ & _ & Hq & _ & _ & Hprice & _).
  split; [reflexivity|]. split; [exact Hq | exact Hprice].
Defined.

Lemma orders_are_kept_witness :
  let es :=
    [Request (Some 2) FarmerDashboard;
     Request (Some 3) (OrderProduct 1 POST (OrderForm.mk (Some 1)) 11)] in
  orders ordered_db !! 2 = Some (Order.mk 3 1 5 150%float 10 true)
  ∧ ∃ o', orders (run sample_hash es ordered_db) !! 2 = Some o'
          ∧ flag_cleared_at_most (Order.mk 3 1 5 150%float 10 true) o'.
Proof.
  cbv zeta. split; [reflexivity|].
  apply (orders_are_kept sample_hash _ ordered_db 2). reflexivity.
Defined.

Lemma users_are_kept_witness :
  let es :=
    [Request (Some 1)
       (AdminEditUser 1 POST
          (UserForm.mk (Some "x") (Some "root") (Some "1") (Some "customer")
             (Some "new")) "s9");
     Request None (Register POST farmer2_form "s4")] in
  users demo_db !! 1 = Some admin_row
  ∧ User.username admin_row = "admin"
  ∧ users (run sample_hash es demo_db) !! 1 = Some admin_row.
Proof.
  cbv zeta. split; [reflexivity|]. split; [reflexivity|].
  apply (users_are_kept sample_hash _ demo_db 1 admin_row); reflexivity.
Defined.

Lemma orders_keep_their_rows_witness :
  let es :=
    [Request (Some 2) (DeleteProduct 1); Request (Some 2) (DeleteProduct 3)] in
  orders_refer_to_rows demo_db
  ∧ products (run sample_hash es demo_db) !! 3 = None
  ∧ orders_refer_to_rows (run sample_hash es demo_db).
Proof.
  cbv zeta.
  assert (orders_refer_to_rows demo_db) as Hdb
    by (unfold orders_refer_to_rows; apply (bool_decide_unpack _);
        vm_compute; exact I).
  split; [exact Hdb|]. split; [reflexivity|].
  exact (orders_keep_their_rows sample_hash _ demo_db Hdb).
Defined.

Lemma stock_and_orders_add_up_witness :
  let es :=
    [Request (Some 3) (OrderProduct 1 POST (OrderForm.mk (Some 5)) 10);
     Request (Some 2) FarmerDashboard;
     Request (Some 3) (OrderProduct 1 POST (OrderForm.mk (Some 200)) 11);
     Request (Some 3) (OrderProduct 1 POST (OrderForm.mk (Some 10)) 12)] in
  Forall keeps_the_books es
  ∧ products demo_db !! 1 = Some tomatoes_row
  ∧ ∃ p', products (run sample_hash es demo_db) !! 1 = Some p'
          ∧ Product.quantity p'
            + ordered_quantity (run sample_hash es demo_db) 1
            = Product.quantity tomatoes_row + ordered_quantity demo_db 1.
Proof.
  cbv zeta.
  assert (Forall keeps_the_books
            [Request (Some 3) (OrderProduct 1 POST (OrderForm.mk (Some 5)) 10);
             Request (Some 2) FarmerDashboard;
             Request (Some 3)
               (OrderProduct 1 POST (OrderForm.mk (Some 200)) 11);
             Request (Some 3)
               (OrderProduct 1 POST (OrderForm.mk (Some 10)) 12)]) as Hes
    by (repeat constructor).
  split; [exact Hes|]. split; [reflexivity|].
  exact (stock_and_orders_add_up sample_hash _ demo_db 1 tomatoes_row Hes
           eq_refl).
Defined.

Lemma non_owner_can_only_order_witness :
  products two_farmers_db !! 1 = Some tomatoes_row
  ∧ fst <$> current_user two_farmers_db (Some 4) = Some 4
  ∧ ∃ q, products
           (handle sample_hash
              (EditProduct 1 POST beetroot_form) (Some 4) two_farmers_db).2
         !! 1 = Some (Product.set_quantity q tomatoes_row)
         ∧ q ≤ Product.quantity tomatoes_row.
Proof.
  split; [reflexivity|]. split; [reflexivity|].
  destruct (non_owner_can_only_order sample_hash
              (EditProduct 1 POST beetroot_form) (Some 4) two_farmers_db 1
              tomatoes_row) as (q & Hq & Hle & _);
    [reflexivity | vm_compute; discriminate |].
  exists q. split; [exact Hq | exact Hle].
Defined.

Lemma register_then_login_witness :
  let r1 := register plain_hash POST farmer2_form "s4" None demo_db in
  r1.1 = redirect (Some ("Registration successful. Please log in.",
                         "success")) ep_login
  ∧ login plain_check POST (LoginForm.mk (Some " farmer2") (Some "pw")) None
      None r1.2
    = (login_redirect (Some ("Logged in successfully.", "success"))
         (to_endpoint ep_index), Some 4).
Proof.
  cbv zeta. split; [reflexivity|].
  apply (register_then_login plain_hash plain_check
           (λ salt pw, f_equal Some (String.eqb_refl pw))
           demo_db None farmer2_form "s4" "farmer2" "pw"
           (LoginForm.mk (Some " farmer2") (Some "pw")) " farmer2" None None);
    reflexivity.
Defined.

Lemma sold_out_leaves_the_catalogue_witness :
  let db' :=
    (order_product 1 POST (OrderForm.mk (Some 100)) 10 (Some 3) demo_db).2 in
  let rows :=
    [(3, Product.mk 2 "Cabbage" "Crisp green cabbage" 40 25%float 3
           "/static/images/ai_cabbage.jpg");
     (2, Product.mk 2 "Spinach" "Leafy spinach" 50 20%float 2
           "/static/images/ai_spinach.jpg")] in
  products_page db' rows
  ∧ 100 = Product.quantity tomatoes_row
  ∧ ∀ p, (1, p) ∉ rows.
Proof.
  cbv zeta.
  assert (products_page
            (order_product 1 POST (OrderForm.mk (Some 100)) 10 (Some 3)
               demo_db).2
            [(3, Product.mk 2 "Cabbage" "Crisp green cabbage" 40 25%float 3
                   "/static/images/ai_cabbage.jpg");
             (2, Product.mk 2 "Spinach" "Leafy spinach" 50 20%float 2
                   "/static/images/ai_spinach.jpg")]) as Hpage.
  { split.
    - assert (map_to_list
                (available_products
                   (order_product 1 POST (OrderForm.mk (Some 100)) 10
                      (Some 3) demo_db).2)
              = [(3, Product.mk 2 "Cabbage" "Crisp green cabbage" 40 25%float
                       3 "/static/images/ai_cabbage.jpg");
                 (2, Product.mk 2 "Spinach" "Leafy spinach" 50 20%float 2
                       "/static/images/ai_spinach.jpg")]) as ->
        by (vm_compute; reflexivity).
      reflexivity.
    - repeat constructor; simpl; lia. }
  split; [exact Hpage|]. split; [reflexivity|].
  apply (sold_out_leaves_the_catalogue demo_db (Some 3) 3 cust1_row 1
           tomatoes_row 100 10 _ eq_refl eq_refl eq_refl
           ltac:(simpl; lia) Hpage).
  reflexivity.
Defined.
